(** * OpenRelik server: data-access layer, provider registry and system
    endpoint, embedded from the Python sources.

  - [Py]        : the fragment of Python the sources rely on (exceptions,
                  a state-and-exception monad, [str.lower],
                  [os.path.join], truthiness, configuration values).
  - [LLM]       : plugins/llm/manager.py            ([LLMManager]).
  - [Sql]       : the relational store behind the SQLAlchemy [Session].
  - [Models]    : datastores/sql/models/workflow.py (relationship options).
  - [FileCrud]  : datastores/sql/crud/file.py.
  - [UserCrud]  : datastores/sql/crud/user.py.
  - [Configs]   : api/v1/configs.py.

  Definitions come first, the results about them afterwards. *)

From Stdlib Require Import ZArith NArith String Ascii List Bool Lia.
From stdpp Require Import base tactics option list gmap strings sorting.

Local Open Scope string_scope.
Local Open Scope Z_scope.

(* ===================================================================== *)
(** ** The Python fragment                                                *)
(* ===================================================================== *)

Module Py.

(** Exceptions raised by the modelled code paths. *)
Inductive exn : Type :=
| AttributeError (msg : string)
| KeyError (msg : string)
| ValueError (msg : string)
| OSError (path : string)
| UnmappedInstanceError (cls : string)
| IntegrityError (msg : string)
| InvalidRequestError (msg : string).

Inductive result (A : Type) : Type :=
| Ok (a : A)
| Raise (e : exn).
Arguments Ok {A} a.
Arguments Raise {A} e.

#[export] Instance result_ret : MRet result := fun A a => Ok a.
#[export] Instance result_bind : MBind result := fun A B k r =>
  match r with
  | Ok a => k a
  | Raise e => Raise e
  end.

(** A computation over a mutable state [St] that either returns a value or
    raises; the state reached at the point of the raise is kept. *)
Definition M (St A : Type) : Type := St -> result A * St.

Definition ret {St A} (a : A) : M St A := fun s => (Ok a, s).

Definition raise {St A} (e : exn) : M St A := fun s => (Raise e, s).

Definition bind {St A B} (m : M St A) (k : A -> M St B) : M St B :=
  fun s =>
    match m s with
    | (Ok a, s') => k a s'
    | (Raise e, s') => (Raise e, s')
    end.

#[export] Instance M_ret {St} : MRet (M St) := fun A => @ret St A.
#[export] Instance M_bind {St} : MBind (M St) := fun A B k m => @bind St A B m k.

Definition get {St} : M St St := fun s => (Ok s, s).

Definition put {St} (s : St) : M St unit := fun _ => (Ok tt, s).

Definition modify {St} (f : St -> St) : M St unit := fun s => (Ok tt, f s).

(** Run a computation on a component of a larger state. *)
Definition zoom {St T A} (proj : T -> St) (upd : St -> T -> T)
    (m : M St A) : M T A :=
  fun t => let '(r, s') := m (proj t) in (r, upd s' t).

(** [str.lower()] on one code point.  Names are strings over the code
    points 0..255; on that range Python lowers exactly A..Z and the
    Latin-1 capitals U+00C0..U+00DE other than the multiplication sign
    U+00D7, each by adding 32. *)
Definition is_upper (c : ascii) : bool :=
  let n := N_of_ascii c in
  ((65 <=? n) && (n <=? 90) ||
   (192 <=? n) && (n <=? 222) && negb (n =? 215))%N.

Definition lower_char (c : ascii) : ascii :=
  if is_upper c then ascii_of_N (N_of_ascii c + 32) else c.

Fixpoint lower (s : string) : string :=
  match s with
  | EmptyString => EmptyString
  | String c s' => String (lower_char c) (lower s')
  end.

(** Two code points are the same letter up to case: they are equal, or one
    is a capital and the other is the small letter 32 positions later. *)
Definition same_letter (c d : ascii) : bool :=
  let m := N_of_ascii c in
  let n := N_of_ascii d in
  ((m =? n) || is_upper c && (n =? m + 32) || is_upper d && (m =? n + 32))%N.

(** Two strings equal up to letter case, position by position. *)
Fixpoint eq_upto_case (s t : string) : bool :=
  match s, t with
  | EmptyString, EmptyString => true
  | String c s', String d t' => same_letter c d && eq_upto_case s' t'
  | _, _ => false
  end.

(** Truthiness of an optional string, as in [if file.get("extension")]:
    a missing key and the empty string are both falsy. *)
Definition truthy_str (o : option string) : bool :=
  match o with
  | None => false
  | Some EmptyString => false
  | Some _ => true
  end.

(** [f"{x}"] for a value that is a string or [None]. *)
Definition fmt (o : option string) : string :=
  match o with
  | None => "None"
  | Some s => s
  end.

Definition startswith_sep (s : string) : bool :=
  match s with
  | String c _ => bool_decide (c = "/"%char)
  | EmptyString => false
  end.

Fixpoint endswith_sep (s : string) : bool :=
  match s with
  | EmptyString => false
  | String c EmptyString => bool_decide (c = "/"%char)
  | String _ s' => endswith_sep s'
  end.

(** [os.path.join(a, b)] (posixpath). *)
Definition os_path_join (a b : string) : string :=
  if startswith_sep b then b
  else if bool_decide (a = "") || endswith_sep a then a ++ b
  else a ++ "/" ++ b.

(** Configuration values, as loaded from the settings file: tables keep
    the order of their keys. *)
#[local] Unset Elimination Schemes.
Inductive value : Type :=
| VNone
| VBool (b : bool)
| VInt (z : Z)
| VStr (s : string)
| VList (l : list value)
| VDict (d : list (string * value)).
#[local] Set Elimination Schemes.

(** [d.get(k, default)] on the items of a dict. *)
Fixpoint dict_get (k : string) (d : list (string * value)) (default : value)
    : value :=
  match d with
  | [] => default
  | (k', v) :: d' => if bool_decide (k' = k) then v else dict_get k d' default
  end.

(** Truthiness of a value. *)
Definition truthy (v : value) : bool :=
  match v with
  | VNone => false
  | VBool b => b
  | VInt z => negb (z =? 0)
  | VStr s => negb (bool_decide (s = ""))
  | VList [] => false
  | VList (_ :: _) => true
  | VDict [] => false
  | VDict (_ :: _) => true
  end.

End Py.

(* ===================================================================== *)
(** ** plugins/llm/manager.py                                             *)
(* ===================================================================== *)

Module LLM.
Import Py.

(** A provider class: a class object (told apart by [class_id]) carrying
    the class attribute [NAME]. *)
Record provider_class : Type := {
  class_id : positive;
  NAME : string
}.

(** [LLMManager._class_registry]. *)
Abbreviation registry := (gmap string provider_class).

(** [LLMManager.get_provider]. *)
Definition get_provider (provider_name : string) : M registry provider_class :=
  fun reg =>
    match reg !! lower provider_name with
    | Some provider_class => (Ok provider_class, reg)
    | None => (Raise (KeyError ("No such provider: " ++ lower provider_name)), reg)
    end.

(** [LLMManager.register_provider]. *)
Definition register_provider (provider_class : provider_class) : M registry unit :=
  fun reg =>
    let provider_name := lower (NAME provider_class) in
    match reg !! provider_name with
    | Some _ =>
        (Raise (ValueError ("Provider " ++ NAME provider_class ++ " already registered")), reg)
    | None => (Ok tt, <[provider_name := provider_class]> reg)
    end.

(** [LLMManager.clear_registration]. *)
Definition clear_registration : M registry unit := fun _ => (Ok tt, ∅).

(** The states of [_class_registry]: empty when the class is defined, then
    whatever calls of the three class methods make of it. *)
Inductive reachable : registry -> Prop :=
| reachable_initial : reachable ∅
| reachable_register reg c : reachable reg -> reachable (register_provider c reg).2
| reachable_get reg n : reachable reg -> reachable (get_provider n reg).2
| reachable_clear reg : reachable reg -> reachable (clear_registration reg).2.

End LLM.

(* ===================================================================== *)
(** ** The relational store behind the SQLAlchemy session                 *)
(* ===================================================================== *)

Module Sql.
Import Py.

(** Modelled from the spec: the Folder entity (datastores/sql/models/folder.py
    is not among the sources); only its identifier and its storage [path]
    are read by the code at hand. *)
Record Folder : Type := {
  folder_id : Z;
  folder_path : string
}.

(** The column values of a File.  The keys of the [file] dict handed to
    [create_file_in_db] are these columns, each possibly absent. *)
Record FileAttrs : Type := {
  display_name : option string;
  uuid : option string;
  extension : option string;
  file_folder_id : option Z;
  magic_text : option string;
  magic_mime : option string;
  filesize : option Z;
  data_type : option string;
  task_input_id : option Z;
  task_output_id : option Z
}.

Record File : Type := {
  file_id : Z;
  file_attrs : FileAttrs
}.

Record User : Type := {
  user_id : Z;
  user_display_name : string;
  username : string;
  password_hash : option string;
  password_hash_algorithm : option string;
  auth_method : string;
  email : option string;
  profile_picture_url : option string;
  user_uuid : string;
  is_admin : bool;
  is_active : bool;
  is_robot : bool
}.

(** Modelled from the spec: the Group entity and its many-to-many
    association with User (models/group.py is not among the sources). *)
Record Group : Type := {
  group_id : Z;
  group_name : string
}.

Record UserApiKey : Type := {
  apikey_id : Z;
  apikey_display_name : string;
  apikey_description : string;
  token_jti : string;
  token_exp : Z;
  apikey_user_id : Z
}.

Record UserRole : Type := {
  role_id : Z;
  role : string;
  role_user_id : Z;
  role_folder_id : option Z;
  role_file_id : option Z
}.

Record Workflow : Type := {
  workflow_id : Z;
  workflow_display_name : string;
  workflow_description : option string;
  workflow_uuid : option string;
  spec_json : option string;
  workflow_user_id : Z;
  workflow_folder_id : option Z
}.

(** [Task.runtime] (a float) is left out: no operation here reads it. *)
Record Task : Type := {
  task_id : Z;
  task_display_name : string;
  task_description : option string;
  task_uuid : string;
  config : option string;
  status_short : option string;
  status_detail : option string;
  status_progress : option string;
  result_ : option string;
  error_exception : option string;
  error_traceback : option string;
  task_user_id : Z;
  task_workflow_id : Z
}.

(** The tables, in insertion order, the two association tables as pairs of
    identifiers, and the primary-key sequences of the tables that the
    modelled code inserts into. *)
Record DB : Type := {
  folders : list Folder;
  files : list File;
  users : list User;
  groups : list Group;
  user_group : list (Z * Z);          (* (user id, group id) *)
  user_api_keys : list UserApiKey;
  user_roles : list UserRole;
  workflows : list Workflow;
  tasks : list Task;
  file_workflow : list (Z * Z);       (* (file id, workflow id) *)
  file_seq : Z;
  user_seq : Z;
  group_seq : Z
}.

Definition set_files (d : DB) (fs : list File) (seq : Z) : DB :=
  {| folders := folders d; files := fs; users := users d; groups := groups d;
     user_group := user_group d; user_api_keys := user_api_keys d;
     user_roles := user_roles d; workflows := workflows d; tasks := tasks d;
     file_workflow := file_workflow d; file_seq := seq;
     user_seq := user_seq d; group_seq := group_seq d |}.

Definition set_users (d : DB) (us : list User) (ug : list (Z * Z)) (seq : Z) : DB :=
  {| folders := folders d; files := files d; users := us; groups := groups d;
     user_group := ug; user_api_keys := user_api_keys d;
     user_roles := user_roles d; workflows := workflows d; tasks := tasks d;
     file_workflow := file_workflow d; file_seq := file_seq d;
     user_seq := seq; group_seq := group_seq d |}.

Definition set_groups (d : DB) (gs : list Group) (seq : Z) : DB :=
  {| folders := folders d; files := files d; users := users d; groups := gs;
     user_group := user_group d; user_api_keys := user_api_keys d;
     user_roles := user_roles d; workflows := workflows d; tasks := tasks d;
     file_workflow := file_workflow d; file_seq := file_seq d;
     user_seq := user_seq d; group_seq := seq |}.

Definition set_user_api_keys (d : DB) (ks : list UserApiKey) : DB :=
  {| folders := folders d; files := files d; users := users d; groups := groups d;
     user_group := user_group d; user_api_keys := ks;
     user_roles := user_roles d; workflows := workflows d; tasks := tasks d;
     file_workflow := file_workflow d; file_seq := file_seq d;
     user_seq := user_seq d; group_seq := group_seq d |}.

Definition set_user_roles (d : DB) (rs : list UserRole) : DB :=
  {| folders := folders d; files := files d; users := users d; groups := groups d;
     user_group := user_group d; user_api_keys := user_api_keys d;
     user_roles := rs; workflows := workflows d; tasks := tasks d;
     file_workflow := file_workflow d; file_seq := file_seq d;
     user_seq := user_seq d; group_seq := group_seq d |}.

Definition set_workflow_graph (d : DB) (ws : list Workflow) (ts : list Task)
    (fs : list File) (fw : list (Z * Z)) : DB :=
  {| folders := folders d; files := fs; users := users d; groups := groups d;
     user_group := user_group d; user_api_keys := user_api_keys d;
     user_roles := user_roles d; workflows := ws; tasks := ts;
     file_workflow := fw; file_seq := file_seq d;
     user_seq := user_seq d; group_seq := group_seq d |}.

(** A session: the rows as committed, and the rows as the open transaction
    sees them.  Queries read the transaction's view; [commit] makes it the
    committed state. *)
Record Session : Type := {
  committed : DB;
  working : DB
}.

Definition on_working (f : DB -> DB) (s : Session) : Session :=
  {| committed := committed s; working := f (working s) |}.

(** [db.commit()]. *)
Definition commit : M Session unit :=
  fun s => (Ok tt, {| committed := working s; working := working s |}).

(** [query.first()]: the first row, in table order, that passes the
    filter. *)
Definition first {A} (p : A -> bool) (rows : list A) : option A :=
  List.find p rows.

(** [db.get(File, file_id)]. *)
Definition get_file (id : Z) : M Session (option File) :=
  fun s => (Ok (first (fun f => bool_decide (file_id f = id)) (files (working s))), s).

(** [db.add] of a new File built from the dict, flushed: the row takes the
    next value of the sequence. *)
Definition add_file (attrs : FileAttrs) : M Session Z :=
  fun s =>
    let d := working s in
    let row := {| file_id := file_seq d; file_attrs := attrs |} in
    (Ok (file_seq d), on_working (fun d => set_files d (files d ++ [row]) (file_seq d + 1)) s).

(** [db.refresh(db_file)]: reloads the row by primary key. *)
Definition refresh_file (id : Z) : M Session File :=
  fun s =>
    match first (fun f => bool_decide (file_id f = id)) (files (working s)) with
    | Some f => (Ok f, s)
    | None => (Raise (InvalidRequestError "Could not refresh instance"), s)
    end.

(** [db.delete(x)] for the result [x] of a point lookup: deleting [None]
    raises [UnmappedInstanceError], as [None] is no mapped instance. *)
Definition delete_file (x : option File) : M Session unit :=
  fun s =>
    match x with
    | None => (Raise (UnmappedInstanceError "builtins.NoneType"), s)
    | Some f =>
        (Ok tt, on_working (fun d =>
           set_files d (filter (fun g => file_id g ≠ file_id f) (files d)) (file_seq d)) s)
    end.

Definition delete_user_role (x : option UserRole) : M Session unit :=
  fun s =>
    match x with
    | None => (Raise (UnmappedInstanceError "builtins.NoneType"), s)
    | Some r =>
        (Ok tt, on_working (fun d =>
           set_user_roles d (filter (fun g => role_id g ≠ role_id r) (user_roles d))) s)
    end.

Definition delete_user_api_key (k : UserApiKey) : M Session unit :=
  fun s =>
    (Ok tt, on_working (fun d =>
       set_user_api_keys d (filter (fun g => apikey_id g ≠ apikey_id k) (user_api_keys d))) s).

(** A table fed by a sequence: primary keys are unique, and the sequence
    is ahead of every key handed out so far. *)
Definition table_ok {A} (key : A -> Z) (rows : list A) (seq : Z) : Prop :=
  NoDup (key <$> rows) /\ Forall (fun r => key r < seq) rows.

Record wf_db (d : DB) : Prop := {
  wf_files : table_ok file_id (files d) (file_seq d);
  wf_users : table_ok user_id (users d) (user_seq d);
  wf_groups : table_ok group_id (groups d) (group_seq d);
  wf_api_keys : NoDup (apikey_id <$> user_api_keys d);
  wf_roles : NoDup (role_id <$> user_roles d);
  wf_workflows : NoDup (workflow_id <$> workflows d);
  wf_tasks : NoDup (task_id <$> tasks d)
}.

End Sql.

(* ===================================================================== *)
(** ** datastores/sql/models/workflow.py: relationship options            *)
(* ===================================================================== *)

Module Models.
Import Py Sql.

(** The cascade options of a [relationship()]. *)
Inductive cascade_option : Type :=
| save_update | merge | refresh_expire | expunge | delete | delete_orphan.

#[export] Instance cascade_option_eq_dec : EqDecision cascade_option.
Proof. solve_decision. Defined.

(** The default of [relationship(cascade=...)], and the expansion of
    ["all"]. *)
Definition cascade_default : list cascade_option := [save_update; merge].
Definition cascade_all : list cascade_option :=
  [save_update; merge; refresh_expire; expunge; delete].

(** [Workflow.tasks]: [cascade="all, delete-orphan"]. *)
Definition Workflow_tasks_cascade : list cascade_option :=
  cascade_all ++ [delete_orphan].

(** [Workflow.files]: many-to-many through
    [file_workflow_association_table], no cascade given. *)
Definition Workflow_files_cascade : list cascade_option := cascade_default.

(** [Task.input_files] and [Task.output_files]: no cascade given. *)
Definition Task_input_files_cascade : list cascade_option := cascade_default.
Definition Task_output_files_cascade : list cascade_option := cascade_default.

Definition clear_task_input (f : File) : File :=
  let a := file_attrs f in
  {| file_id := file_id f;
     file_attrs :=
       {| display_name := display_name a; uuid := uuid a;
          extension := extension a; file_folder_id := file_folder_id a;
          magic_text := magic_text a; magic_mime := magic_mime a;
          filesize := filesize a; data_type := data_type a;
          task_input_id := None; task_output_id := task_output_id a |} |}.

Definition clear_task_output (f : File) : File :=
  let a := file_attrs f in
  {| file_id := file_id f;
     file_attrs :=
       {| display_name := display_name a; uuid := uuid a;
          extension := extension a; file_folder_id := file_folder_id a;
          magic_text := magic_text a; magic_mime := magic_mime a;
          filesize := filesize a; data_type := data_type a;
          task_input_id := task_input_id a; task_output_id := None |} |}.

(** Whether the foreign key [fk] of a child row points at one of the
    [parents]. *)
Definition references {C} (fk : C -> option Z) (parents : list Z) (c : C) : bool :=
  match fk c with
  | Some p => bool_decide (p ∈ parents)
  | None => false
  end.

(** What the unit of work does to the children of a one-to-many
    relationship (nullable foreign key on the child) when parents are
    deleted: with the [delete] cascade the children are deleted too,
    without it their foreign key is set to NULL. *)
Definition one_to_many_on_delete {C} (cascade : list cascade_option)
    (fk : C -> option Z) (null_fk : C -> C) (parents : list Z)
    (children : list C) : list C :=
  if bool_decide (delete ∈ cascade)
  then filter (fun c => references fk parents c = false) children
  else (fun c => if references fk parents c then null_fk c else c) <$> children.

(** The files after the deletion of the tasks [gone]. *)
Definition files_after (gone : list Z) (fs : list File) : list File :=
  one_to_many_on_delete Task_output_files_cascade
    (fun f => task_output_id (file_attrs f)) clear_task_output gone
    (one_to_many_on_delete Task_input_files_cascade
       (fun f => task_input_id (file_attrs f)) clear_task_input gone fs).

(** [db.delete(workflow)], flushed.  The tasks of the workflow follow the
    cascade of [Workflow.tasks] ([Task.workflow_id] is not nullable, so
    without the [delete] cascade the flush fails); the files of the deleted
    tasks follow the cascades of [Task.input_files] and
    [Task.output_files]; the rows of the association table for the
    workflow go with it. *)
Definition delete_workflow (x : option Workflow) : M Session unit :=
  fun s =>
    match x with
    | None => (Raise (UnmappedInstanceError "builtins.NoneType"), s)
    | Some w =>
        let d := working s in
        if bool_decide (delete ∈ Workflow_tasks_cascade) then
          let gone :=
            task_id <$> filter (fun t => task_workflow_id t = workflow_id w) (tasks d) in
          let fs1 := one_to_many_on_delete Task_input_files_cascade
                       (fun f => task_input_id (file_attrs f)) clear_task_input
                       gone (files d) in
          let fs2 := one_to_many_on_delete Task_output_files_cascade
                       (fun f => task_output_id (file_attrs f)) clear_task_output
                       gone fs1 in
          (Ok tt,
           on_working (fun d =>
             set_workflow_graph d
               (filter (fun v => workflow_id v ≠ workflow_id w) (workflows d))
               (filter (fun t => task_workflow_id t ≠ workflow_id w) (tasks d))
               fs2
               (filter (fun p : Z * Z => p.2 ≠ workflow_id w) (file_workflow d))) s)
        else
          (Raise (IntegrityError "null value in column workflow_id of task"), s)
    end.

(** [db.get(Workflow, workflow_id)]. *)
Definition get_workflow (id : Z) : M Session (option Workflow) :=
  fun s => (Ok (first (fun v => bool_decide (workflow_id v = id)) (workflows (working s))), s).

(** Modelled from the spec: the delete call for a Workflow
    (crud/workflow.py is not among the sources), an explicit delete call
    of the data-access layer like [delete_file_from_db]: load by id,
    delete, commit. *)
Definition delete_workflow_from_db (workflow_id : Z) : M Session unit :=
  workflow ← get_workflow workflow_id;
  delete_workflow workflow;;
  commit.

(** What the deletion of the tasks [gone] does to one file when neither
    relationship cascades the delete: the references to those tasks are
    cleared. *)
Definition detach (gone : list Z) (f : File) : File :=
  let f1 := if references (fun f => task_input_id (file_attrs f)) gone f
            then clear_task_input f else f in
  if references (fun f => task_output_id (file_attrs f)) gone f1
  then clear_task_output f1 else f1.

(** The order of [Task.id.asc()]. *)
Definition task_id_asc (a b : Task) : Prop := task_id a ≤ task_id b.

#[export] Instance task_id_asc_dec : RelDecision task_id_asc.
Proof. intros a b. unfold task_id_asc. apply _. Defined.

(** Strictly ascending identifiers. *)
Definition task_id_below (a b : Task) : Prop := task_id a < task_id b.

(** [workflow.tasks]: the tasks whose [workflow_id] is the workflow's,
    loaded with [order_by="Task.id.asc()"]. *)
Definition Workflow_tasks (w : Workflow) (d : DB) : list Task :=
  merge_sort task_id_asc
    (filter (fun t => task_workflow_id t = workflow_id w) (tasks d)).

(** [task.input_files] and [task.output_files]: the files whose
    [task_input_id], respectively [task_output_id], is the task's. *)
Definition Task_input_files (t : Task) (d : DB) : list File :=
  filter (fun f => task_input_id (file_attrs f) = Some (task_id t)) (files d).

Definition Task_output_files (t : Task) (d : DB) : list File :=
  filter (fun f => task_output_id (file_attrs f) = Some (task_id t)) (files d).

End Models.

(* ===================================================================== *)
(** ** datastores/sql/crud/file.py                                        *)
(* ===================================================================== *)

Module FileCrud.
Import Py Sql.

(** The filesystem collaborator: what [magic.from_file] and [os.stat]
    answer for a path, [None] where the call raises (missing file,
    permission error). *)
Record FileSystem : Type := {
  fs_magic_text : string -> option string;
  fs_magic_mime : string -> option string;
  fs_stat_size : string -> option Z
}.

Inductive fs_call : Type :=
| MagicFromFile (path : string) (mime : bool)
| OsStat (path : string).

(** What a call of this module can touch: the session, and the filesystem
    together with the log of the accesses made to it. *)
Record World : Type := {
  db : Session;
  fs : FileSystem;
  fs_trace : list fs_call
}.

Definition with_db (s : Session) (w : World) : World :=
  {| db := s; fs := fs w; fs_trace := fs_trace w |}.

Definition log (c : fs_call) (w : World) : World :=
  {| db := db w; fs := fs w; fs_trace := fs_trace w ++ [c] |}.

Definition in_db {A} (m : M Session A) : M World A := zoom db with_db m.

(** [magic.from_file(path)] and [magic.from_file(path, mime=True)]. *)
Definition magic_from_file (path : string) (mime : bool) : M World string :=
  fun w =>
    let answer := if mime then fs_magic_mime (fs w) path else fs_magic_text (fs w) path in
    match answer with
    | Some r => (Ok r, log (MagicFromFile path mime) w)
    | None => (Raise (OSError path), log (MagicFromFile path mime) w)
    end.

(** [os.stat(path).st_size]. *)
Definition os_stat_size (path : string) : M World Z :=
  fun w =>
    match fs_stat_size (fs w) path with
    | Some n => (Ok n, log (OsStat path) w)
    | None => (Raise (OSError path), log (OsStat path) w)
    end.

(** Modelled from the spec: [get_folder_from_db] (crud/folder.py is not
    among the sources), a point lookup that returns an absence signal when
    the folder is not found. *)
Definition get_folder_from_db (folder_id : option Z) : M Session (option Folder) :=
  fun s =>
    (Ok (id ← folder_id;
         first (fun f => bool_decide (Sql.folder_id f = id)) (folders (working s))), s).

(** [folder.path]: attribute access, which raises on [None]. *)
Definition path_of {St} (folder : option Folder) : M St string :=
  match folder with
  | Some f => mret (folder_path f)
  | None => raise (AttributeError "'NoneType' object has no attribute 'path'")
  end.

(** The order of [File.id.desc()]. *)
Definition id_desc (a b : File) : Prop := file_id b ≤ file_id a.

#[export] Instance id_desc_dec : RelDecision id_desc.
Proof. intros a b. unfold id_desc. apply _. Defined.

(** Strictly descending identifiers. *)
Definition id_above (a b : File) : Prop := file_id b < file_id a.

(** [get_files_from_db]. *)
Definition get_files_from_db (folder_id : Z) : M Session (list File) :=
  fun s =>
    (Ok (merge_sort id_desc
           (filter (fun f => file_folder_id (file_attrs f) = Some folder_id)
                   (files (working s)))), s).

(** [get_file_from_db]. *)
Definition get_file_from_db (file_id : Z) : M Session (option File) :=
  get_file file_id.

(** The name under which the file is stored in its folder. *)
Definition stored_filename (file : FileAttrs) : string :=
  if truthy_str (extension file)
  then fmt (uuid file) ++ "." ++ fmt (extension file)
  else fmt (uuid file).

(** The dict after the metadata assignments. *)
Definition with_metadata (file : FileAttrs) (text mime : string) (size : Z)
    : FileAttrs :=
  {| display_name := display_name file; uuid := uuid file;
     extension := extension file; file_folder_id := file_folder_id file;
     magic_text := Some text; magic_mime := Some mime; filesize := Some size;
     data_type := if truthy_str (data_type file) then data_type file
                  else Some "file:generic";
     task_input_id := task_input_id file;
     task_output_id := task_output_id file |}.

(** The path that [create_file_in_db] inspects for a file stored in
    [folder]. *)
Definition derived_path (folder : Folder) (file : FileAttrs) : string :=
  os_path_join (folder_path folder) (stored_filename file).

(** The filesystem inspection of [path] fails: one of the three calls
    raises. *)
Definition inspection_fails (f : FileSystem) (path : string) : Prop :=
  fs_magic_text f path = None \/ fs_magic_mime f path = None \/
  fs_stat_size f path = None.

(** [create_file_in_db]. *)
Definition create_file_in_db (file : FileAttrs) : M World File :=
  folder ← in_db (get_folder_from_db (file_folder_id file));
  let filename := stored_filename file in
  folder_path ← path_of folder;
  let output_file := os_path_join folder_path filename in
  text ← magic_from_file output_file false;
  mime ← magic_from_file output_file true;
  size ← os_stat_size output_file;
  let file := with_metadata file text mime size in
  db_file ← in_db (add_file file);
  in_db commit;;
  in_db (refresh_file db_file).

(** The store after a successful [create_file_in_db] that persists
    [attrs]. *)
Definition persisted (d : DB) (attrs : FileAttrs) : DB :=
  set_files d (files d ++ [{| file_id := file_seq d; file_attrs := attrs |}])
            (file_seq d + 1).

(** [delete_file_from_db]. *)
Definition delete_file_from_db (file_id : Z) : M Session unit :=
  file ← get_file file_id;
  delete_file file;;
  commit.

End FileCrud.

(* ===================================================================== *)
(** ** datastores/sql/crud/user.py                                        *)
(* ===================================================================== *)

Module UserCrud.
Import Py Sql.

(** [schemas.UserCreate]. *)
Record UserCreate : Type := {
  uc_display_name : string;
  uc_username : string;
  uc_password_hash : option string;
  uc_password_hash_algorithm : option string;
  uc_auth_method : string;
  uc_email : option string;
  uc_profile_picture_url : option string;
  uc_uuid : string;
  uc_is_admin : bool;
  uc_is_active : bool;
  uc_is_robot : bool
}.

(** [schemas.GroupCreate]. *)
Record GroupCreate : Type := {
  gc_name : string
}.

(** A [User] object that is not flushed yet: its columns, waiting for the
    primary key, and its [groups] collection. *)
Record NewUser : Type := {
  columns : Z -> User;
  new_groups : list Group
}.

(** [User(display_name=new_user.display_name, ...)]. *)
Definition User_ (new_user : UserCreate) : NewUser :=
  {| columns := fun id =>
       {| user_id := id;
          user_display_name := uc_display_name new_user;
          username := uc_username new_user;
          password_hash := uc_password_hash new_user;
          password_hash_algorithm := uc_password_hash_algorithm new_user;
          auth_method := uc_auth_method new_user;
          email := uc_email new_user;
          profile_picture_url := uc_profile_picture_url new_user;
          user_uuid := uc_uuid new_user;
          is_admin := uc_is_admin new_user;
          is_active := uc_is_active new_user;
          is_robot := uc_is_robot new_user |};
     new_groups := [] |}.

(** [user.groups.append(group)]. *)
Definition groups_append (u : NewUser) (g : Group) : NewUser :=
  {| columns := columns u; new_groups := new_groups u ++ [g] |}.

(** [db.add(user)], flushed: the row takes the next value of the sequence
    and one association row is written per group of the user. *)
Definition add_user (u : NewUser) : M Session Z :=
  fun s =>
    let id := user_seq (working s) in
    (Ok id,
     on_working (fun d =>
       set_users d (users d ++ [columns u id])
         (user_group d ++ ((fun g => (id, group_id g)) <$> new_groups u))
         (id + 1)) s).

(** [db.refresh(user)]. *)
Definition refresh_user (id : Z) : M Session User :=
  fun s =>
    match first (fun u => bool_decide (user_id u = id)) (users (working s)) with
    | Some u => (Ok u, s)
    | None => (Raise (InvalidRequestError "Could not refresh instance"), s)
    end.

Definition add_group (name : string) : M Session Z :=
  fun s =>
    let id := group_seq (working s) in
    (Ok id,
     on_working (fun d =>
       set_groups d (groups d ++ [{| group_id := id; group_name := name |}]) (id + 1)) s).

Definition refresh_group (id : Z) : M Session Group :=
  fun s =>
    match first (fun g => bool_decide (group_id g = id)) (groups (working s)) with
    | Some g => (Ok g, s)
    | None => (Raise (InvalidRequestError "Could not refresh instance"), s)
    end.

(** Modelled from the spec: [get_group_by_name_from_db] (crud/group.py is
    not among the sources), the lookup of a group by its name, absent when
    there is none. *)
Definition get_group_by_name_from_db (name : string) : M Session (option Group) :=
  fun s => (Ok (first (fun g => bool_decide (group_name g = name)) (groups (working s))), s).

(** Modelled from the spec: [create_group_in_db] (crud/group.py is not
    among the sources), which persists a new group of the given name and
    returns it, as the other create calls do: add, commit, refresh. *)
Definition create_group_in_db (new_group : GroupCreate) : M Session Group :=
  db_group ← add_group (gc_name new_group);
  commit;;
  refresh_group db_group.

(** The groups called [name]. *)
Definition groups_named (name : string) (d : DB) : list Group :=
  filter (fun g => group_name g = name) (groups d).

(** The filter of the lookup of the "Everyone" group. *)
Definition is_everyone (g : Group) : bool :=
  bool_decide (group_name g = "Everyone").

(** The store once the "Everyone" group has been added to it. *)
Definition with_everyone (d : DB) : DB :=
  set_groups d
    (groups d ++ [{| group_id := group_seq d; group_name := "Everyone" |}])
    (group_seq d + 1).

(** The store once the user [u] has been added to it as a member of [g]. *)
Definition enrolled (d : DB) (u : UserCreate) (g : Group) : DB :=
  set_users d
    (users d ++ [columns (User_ u) (user_seq d)])
    (user_group d ++ [(user_seq d, group_id g)])
    (user_seq d + 1).

(** [create_user_in_db]. *)
Definition create_user_in_db (new_user : UserCreate) : M Session User :=
  let new_db_user := User_ new_user in
  everyone_group ← get_group_by_name_from_db "Everyone";
  everyone_group ← match everyone_group with
                    | Some g => mret g
                    | None => create_group_in_db {| gc_name := "Everyone" |}
                    end;
  let new_db_user := groups_append new_db_user everyone_group in
  id ← add_user new_db_user;
  commit;;
  refresh_user id.

(** [delete_user_api_key_from_db]. *)
Definition delete_user_api_key_from_db (apikey_id : Z) (current_user : User)
    : M Session unit :=
  api_key ← (fun s =>
    (Ok (first (fun k => bool_decide (Sql.apikey_id k = apikey_id)
                         && bool_decide (apikey_user_id k = user_id current_user))
               (user_api_keys (working s))), s));
  match api_key with
  | Some k => delete_user_api_key k;; commit
  | None => mret tt
  end.

(** [user_role_exists]. *)
Definition user_role_exists (user_id folder_id : Z) (role : string) : M Session bool :=
  fun s =>
    (Ok (bool_decide (is_Some
           (first (fun r => bool_decide (role_user_id r = user_id)
                            && bool_decide (role_folder_id r = Some folder_id)
                            && bool_decide (Sql.role r = role))
                  (user_roles (working s))))), s).

(** [delete_user_role_from_db]. *)
Definition delete_user_role_from_db (user_role_id : Z) : M Session unit :=
  user_role ← (fun s =>
    (Ok (first (fun r => bool_decide (role_id r = user_role_id))
               (user_roles (working s))), s));
  delete_user_role user_role;;
  commit.

(** [get_users_from_db]. *)
Definition get_users_from_db : M Session (list User) :=
  fun s => (Ok (users (working s)), s).

(** [get_user_from_db]. *)
Definition get_user_from_db (user_id : Z) : M Session (option User) :=
  fun s =>
    (Ok (first (fun u => bool_decide (Sql.user_id u = user_id)) (users (working s))), s).

(** [get_user_by_email_from_db]: a NULL email equals no string. *)
Definition get_user_by_email_from_db (email : string) : M Session (option User) :=
  fun s =>
    (Ok (first (fun u => bool_decide (Sql.email u = Some email)) (users (working s))), s).

(** [get_user_by_uuid_from_db]. *)
Definition get_user_by_uuid_from_db (uuid : string) : M Session (option User) :=
  fun s =>
    (Ok (first (fun u => bool_decide (user_uuid u = uuid)) (users (working s))), s).

(** [get_user_by_username_from_db]. *)
Definition get_user_by_username_from_db (username : string) : M Session (option User) :=
  fun s =>
    (Ok (first (fun u => bool_decide (Sql.username u = username)) (users (working s))), s).

(** [get_user_api_keys_from_db]. *)
Definition get_user_api_keys_from_db (current_user : User)
    : M Session (list UserApiKey) :=
  fun s =>
    (Ok (filter (fun k => apikey_user_id k = user_id current_user)
                (user_api_keys (working s))), s).

(** [schemas.UserApiKeyCreate]. *)
Record UserApiKeyCreate : Type := {
  akc_display_name : string;
  akc_description : string;
  akc_token_jti : string;
  akc_token_exp : Z;
  akc_user_id : Z
}.

(** The session together with the primary-key sequences of the tables of
    API keys and of roles. *)
Record Store : Type := {
  session : Session;
  apikey_seq : Z;
  role_seq : Z
}.

Definition with_session (s : Session) (st : Store) : Store :=
  {| session := s; apikey_seq := apikey_seq st; role_seq := role_seq st |}.

Definition in_session {A} (m : M Session A) : M Store A := zoom session with_session m.

(** [db.add(new_apikey)], flushed. *)
Definition add_user_api_key (k : Z -> UserApiKey) : M Store Z :=
  fun st =>
    let id := apikey_seq st in
    (Ok id,
     {| session := on_working (fun d =>
          set_user_api_keys d (user_api_keys d ++ [k id])) (session st);
        apikey_seq := id + 1;
        role_seq := role_seq st |}).

(** [db.refresh(new_apikey)]. *)
Definition refresh_user_api_key (id : Z) : M Session UserApiKey :=
  fun s =>
    match first (fun k => bool_decide (Sql.apikey_id k = id)) (user_api_keys (working s)) with
    | Some k => (Ok k, s)
    | None => (Raise (InvalidRequestError "Could not refresh instance"), s)
    end.

(** [create_user_api_key_in_db]. *)
Definition create_user_api_key_in_db (apikey : UserApiKeyCreate) : M Store UserApiKey :=
  let new_apikey := fun id =>
    {| Sql.apikey_id := id;
       apikey_display_name := akc_display_name apikey;
       apikey_description := akc_description apikey;
       token_jti := akc_token_jti apikey;
       token_exp := akc_token_exp apikey;
       apikey_user_id := akc_user_id apikey |} in
  id ← add_user_api_key new_apikey;
  in_session commit;;
  in_session (refresh_user_api_key id).

(** [db.add(user_role)], flushed. *)
Definition add_user_role (r : Z -> UserRole) : M Store Z :=
  fun st =>
    let id := role_seq st in
    (Ok id,
     {| session := on_working (fun d =>
          set_user_roles d (user_roles d ++ [r id])) (session st);
        apikey_seq := apikey_seq st;
        role_seq := id + 1 |}).

(** [create_user_role_in_db]: the object is returned after the commit,
    without a refresh. *)
Definition create_user_role_in_db (role : string) (user_id : Z)
    (folder_id file_id : option Z) : M Store UserRole :=
  let user_role := fun id =>
    {| role_id := id; Sql.role := role; role_user_id := user_id;
       role_folder_id := folder_id; role_file_id := file_id |} in
  id ← add_user_role user_role;
  in_session commit;;
  mret (user_role id).

(** The columns that [user_role_exists] compares. *)
Definition role_triple (r : UserRole) : Z * option Z * string :=
  (role_user_id r, role_folder_id r, Sql.role r).

End UserCrud.

(* ===================================================================== *)
(** ** api/v1/configs.py                                                  *)
(* ===================================================================== *)

Module Configs.
Import Py.

Definition type_name (v : value) : string :=
  match v with
  | VNone => "NoneType"
  | VBool _ => "bool"
  | VInt _ => "int"
  | VStr _ => "str"
  | VList _ => "list"
  | VDict _ => "dict"
  end.

Definition no_attribute (v : value) (attr : string) : exn :=
  AttributeError ("'" ++ type_name v ++ "' object has no attribute '" ++ attr ++ "'").

(** [v.values()]: only a dict has the method. *)
Definition values (v : value) : result (list value) :=
  match v with
  | VDict d => Ok (snd <$> d)
  | _ => Raise (no_attribute v "values")
  end.

(** [v.get(k, default)]: only a dict has the method. *)
Definition get_ (v : value) (k : string) (default : value) : result value :=
  match v with
  | VDict d => Ok (dict_get k d default)
  | _ => Raise (no_attribute v "get")
  end.

(** [[service for service in services if service.get("enabled", False)]]. *)
Fixpoint enabled_services (services : list value) : result (list value) :=
  match services with
  | [] => Ok []
  | service :: rest =>
      enabled ← get_ service "enabled" (VBool false);
      kept ← enabled_services rest;
      Ok (if truthy enabled then service :: kept else kept)
  end.

(** [get_system_config].  The module-level [config] is the dict loaded
    from the settings; [get_active_cloud_provider] lives in config.py,
    which is not among the sources, so what it returns or raises for the
    configuration at hand is taken as the argument [active_cloud_provider]. *)
Definition get_system_config (config : list (string * value))
    (active_cloud_provider : result value) : result value :=
  let llms := dict_get "llms" config (VList []) in
  services ← values llms;
  active_llms ← enabled_services services;
  let data_types := VList [VStr "text/csv"; VStr "text/json"] in
  active_cloud ← active_cloud_provider;
  Ok (VDict [("active_llms", VList active_llms);
             ("data_types", data_types);
             ("active_cloud", active_cloud)]).

(** The status of the response: 200 for a returned object, 500 when the
    handler raises. *)
Definition status_code (r : result value) : Z :=
  match r with
  | Ok _ => 200
  | Raise _ => 500
  end.

(** Whether a value is a table. *)
Definition is_dict (v : value) : bool :=
  match v with
  | VDict _ => true
  | _ => false
  end.

(** The filter of the list comprehension on a service that is a table. *)
Definition service_enabled (v : value) : bool :=
  match v with
  | VDict d => truthy (dict_get "enabled" d (VBool false))
  | _ => false
  end.

End Configs.

(* ===================================================================== *)
(** ** Sample data                                                        *)
(* ===================================================================== *)

Module Samples.
Import Py Sql FileCrud UserCrud.

Definition no_attrs : FileAttrs :=
  {| display_name := None; uuid := None; extension := None;
     file_folder_id := None; magic_text := None; magic_mime := None;
     filesize := None; data_type := None; task_input_id := None;
     task_output_id := None |}.

(** The dict of an upload: a name, a uuid, an extension and a folder. *)
Definition upload (name uuid_ ext : string) (folder : Z) : FileAttrs :=
  {| display_name := Some name; uuid := Some uuid_; extension := Some ext;
     file_folder_id := Some folder; magic_text := None; magic_mime := None;
     filesize := None; data_type := None; task_input_id := None;
     task_output_id := None |}.

Definition stored (id : Z) (name : string) (folder : Z)
    (input output : option Z) : File :=
  {| file_id := id;
     file_attrs :=
       {| display_name := Some name; uuid := Some name; extension := None;
          file_folder_id := Some folder; magic_text := Some "data";
          magic_mime := Some "application/octet-stream"; filesize := Some 4;
          data_type := Some "file:generic"; task_input_id := input;
          task_output_id := output |} |}.

Definition person (id : Z) (name : string) : User :=
  {| user_id := id; user_display_name := name; username := name;
     password_hash := None; password_hash_algorithm := None;
     auth_method := "local"; email := None; profile_picture_url := None;
     user_uuid := name; is_admin := false; is_active := true;
     is_robot := false |}.

Definition signup (name : string) : UserCreate :=
  {| uc_display_name := name; uc_username := name; uc_password_hash := None;
     uc_password_hash_algorithm := None; uc_auth_method := "local";
     uc_email := None; uc_profile_picture_url := None; uc_uuid := name;
     uc_is_admin := false; uc_is_active := true; uc_is_robot := false |}.

Definition task (id workflow : Z) : Task :=
  {| task_id := id; task_display_name := "task"; task_description := None;
     task_uuid := "t"; config := None; status_short := None;
     status_detail := None; status_progress := None; result_ := None;
     error_exception := None; error_traceback := None; task_user_id := 1;
     task_workflow_id := workflow |}.

Definition flow (id : Z) : Workflow :=
  {| workflow_id := id; workflow_display_name := "flow";
     workflow_description := None; workflow_uuid := None; spec_json := None;
     workflow_user_id := 1; workflow_folder_id := Some 1 |}.

(** Two users, one folder with two files, an API key per user, one role,
    two workflows with their tasks, and no group yet. *)
Definition store : DB :=
  {| folders := [{| folder_id := 1; folder_path := "/mnt/artifacts/case1" |}];
     files := [stored 1 "disk.img" 1 (Some 20) None;
               stored 2 "report.txt" 1 None (Some 21)];
     users := [person 1 "alice"; person 2 "bob"];
     groups := [];
     user_group := [];
     user_api_keys :=
       [{| apikey_id := 10; apikey_display_name := "ci"; apikey_description := "";
           token_jti := "a"; token_exp := 100; apikey_user_id := 1 |};
        {| apikey_id := 11; apikey_display_name := "cli"; apikey_description := "";
           token_jti := "b"; token_exp := 100; apikey_user_id := 2 |}];
     user_roles :=
       [{| role_id := 5; role := "viewer"; role_user_id := 1;
           role_folder_id := Some 1; role_file_id := None |}];
     workflows := [flow 3; flow 4];
     tasks := [task 20 3; task 21 3; task 22 4];
     file_workflow := [(1, 3); (1, 4)];
     file_seq := 3; user_seq := 3; group_seq := 1 |}.

Definition session : Session := {| committed := store; working := store |}.

(** A filesystem on which every path can be inspected. *)
Definition disk : FileSystem :=
  {| fs_magic_text := fun _ => Some "ASCII text";
     fs_magic_mime := fun _ => Some "text/plain";
     fs_stat_size := fun _ => Some 12 |}.

(** A filesystem on which nothing is found. *)
Definition empty_disk : FileSystem :=
  {| fs_magic_text := fun _ => None;
     fs_magic_mime := fun _ => None;
     fs_stat_size := fun _ => None |}.

Definition world (f : FileSystem) : World :=
  {| db := session; fs := f; fs_trace := [] |}.

(** Settings with two LLM services, one of them enabled. *)
Definition settings : list (string * value) :=
  [("server", VDict [("storage_path", VStr "/mnt/artifacts")]);
   ("llms",
    VDict [("ollama", VDict [("enabled", VBool true); ("model", VStr "gemma")]);
           ("vertexai", VDict [("enabled", VBool false)])])].

(** Settings without an [llms] table. *)
Definition settings_without_llms : list (string * value) :=
  [("server", VDict [("storage_path", VStr "/mnt/artifacts")])].

(** The sample session with the sequences of API keys and roles. *)
Definition grants : Store :=
  {| UserCrud.session := session; apikey_seq := 12; role_seq := 6 |}.

End Samples.

(* ===================================================================== *)
(** * Results                                                             *)
(* ===================================================================== *)

(** ** Letter case *)

Section LetterCase.
Import Py.

Lemma ascii_cases (P : ascii -> Prop) :
  (forall n : nat, (n < 256)%nat -> P (ascii_of_nat n)) -> forall c, P c.
Proof.
  intros H c. rewrite <- (ascii_nat_embedding c). apply H.
  apply nat_ascii_bounded.
Qed.

Lemma lowered_is_not_upper c :
  is_upper c = true -> is_upper (ascii_of_N (N_of_ascii c + 32)) = false.
Proof.
  destruct c as [[] [] [] [] [] [] [] []]; vm_compute; congruence.
Qed.

Lemma lower_char_idem c : lower_char (lower_char c) = lower_char c.
Proof.
  unfold lower_char at 2 3. destruct (is_upper c) eqn:E.
  - unfold lower_char. by rewrite lowered_is_not_upper.
  - unfold lower_char. by rewrite E.
Qed.

Lemma upper_partner c d :
  is_upper c = true -> N_of_ascii d = (N_of_ascii c + 32)%N ->
  lower_char c = d /\ lower_char d = d.
Proof.
  intros Hc Hd.
  assert (d = ascii_of_N (N_of_ascii c + 32)) as ->
    by (rewrite <- Hd; symmetry; apply ascii_N_embedding).
  unfold lower_char. rewrite Hc, lowered_is_not_upper; done.
Qed.

Lemma same_letter_lower c d :
  same_letter c d = true -> lower_char c = lower_char d.
Proof.
  unfold same_letter. intros H.
  apply orb_true_iff in H as [H|H]; [apply orb_true_iff in H as [H|H]|].
  - apply N.eqb_eq in H.
    assert (c = d) as -> by
      (rewrite <- (ascii_N_embedding c), <- (ascii_N_embedding d); by f_equal).
    done.
  - apply andb_true_iff in H as [Hc H]. apply N.eqb_eq in H.
    destruct (upper_partner c d Hc H) as [-> ->]. done.
  - apply andb_true_iff in H as [Hd H]. apply N.eqb_eq in H.
    destruct (upper_partner d c Hd H) as [-> ->]. done.
Qed.

Lemma eq_upto_case_lower s : forall t,
  eq_upto_case s t = true -> lower s = lower t.
Proof.
  induction s as [|c s IH]; intros [|d t] H; simpl in *; try done.
  apply andb_true_iff in H as [Hc Hs].
  by rewrite (same_letter_lower _ _ Hc), (IH _ Hs).
Qed.

Lemma eq_upto_case_refl s : eq_upto_case s s = true.
Proof.
  induction s as [|c s IH]; simpl; [done|].
  rewrite IH, andb_true_r. unfold same_letter. by rewrite N.eqb_refl.
Qed.

End LetterCase.

(** ** The provider registry *)

Section Registry.
Import Py LLM.

Example lower_mixed : lower "OpenAI-v2_X" = "openai-v2_x".
Proof. reflexivity. Qed.

(** U+00C9 (E acute) lowers to U+00E9, the multiplication sign stays. *)
Example lower_latin1 :
  lower_char (ascii_of_N 201) = ascii_of_N 233 /\
  lower_char (ascii_of_N 215) = ascii_of_N 215.
Proof. split; reflexivity. Qed.

Example case_variants : eq_upto_case "Ollama" "oLLAMA" = true.
Proof. reflexivity. Qed.

Example not_case_variants : eq_upto_case "Ollama" "Ollamb" = false.
Proof. reflexivity. Qed.

Lemma register_provider_fresh X (reg : registry) :
  reg !! lower (NAME X) = None ->
  register_provider X reg = (Ok tt, <[lower (NAME X) := X]> reg).
Proof. intros H. unfold register_provider. by rewrite H. Qed.

Lemma register_provider_taken X Z (reg : registry) :
  reg !! lower (NAME X) = Some Z ->
  register_provider X reg =
    (Raise (ValueError ("Provider " ++ NAME X ++ " already registered")), reg).
Proof. intros H. unfold register_provider. by rewrite H. Qed.

(** A registration, whether it succeeds or is refused, never replaces an
    entry that is already there. *)
Lemma register_provider_keeps X Y k (reg : registry) :
  reg !! k = Some X -> (register_provider Y reg).2 !! k = Some X.
Proof.
  intros H. unfold register_provider. cbv beta zeta.
  case_match eqn:E; simpl; [done|].
  rewrite lookup_insert_ne; [done|]. intros <-. congruence.
Qed.

(** C4. Of two provider classes whose NAME attributes differ only by letter
    case, the first is registered (its lower-cased name being free) and the
    second is refused with the duplicate-provider [ValueError], the registry
    staying as the first registration left it. *)
Theorem register_provider_case_duplicate X Y (reg : registry) :
  eq_upto_case (NAME X) (NAME Y) = true ->
  reg !! lower (NAME X) = None ->
  exists reg',
    register_provider X reg = (Ok tt, reg') /\
    reg' !! lower (NAME X) = Some X /\
    register_provider Y reg' =
      (Raise (ValueError ("Provider " ++ NAME Y ++ " already registered")), reg').
Proof.
  intros Hcase Hfree. exists (<[lower (NAME X) := X]> reg).
  split; [by apply register_provider_fresh|].
  split; [by rewrite lookup_insert_eq|].
  apply (register_provider_taken Y X).
  rewrite <- (eq_upto_case_lower _ _ Hcase). by rewrite lookup_insert_eq.
Qed.

Lemma register_provider_case_duplicate_witness :
  exists reg',
    register_provider {| class_id := 1; NAME := "Ollama" |} ∅ = (Ok tt, reg') /\
    reg' !! lower "Ollama" = Some {| class_id := 1; NAME := "Ollama" |} /\
    register_provider {| class_id := 2; NAME := "OLLAMA" |} reg' =
      (Raise (ValueError "Provider OLLAMA already registered"), reg').
Proof.
  apply (register_provider_case_duplicate
           {| class_id := 1; NAME := "Ollama" |}
           {| class_id := 2; NAME := "OLLAMA" |} ∅).
  - reflexivity.
  - apply lookup_empty.
Defined.

(** C5. After a successful [register_provider X], [get_provider n] returns
    [X] for every [n] equal to [X.NAME] up to letter case, and leaves the
    registry as it is. *)
Theorem get_provider_after_register X n (reg reg' : registry) :
  register_provider X reg = (Ok tt, reg') ->
  eq_upto_case n (NAME X) = true ->
  get_provider n reg' = (Ok X, reg').
Proof.
  intros Hreg Hcase. unfold register_provider in Hreg.
  destruct (reg !! lower (NAME X)) eqn:E; [done|].
  injection Hreg as <-. unfold get_provider.
  rewrite (eq_upto_case_lower _ _ Hcase). by rewrite lookup_insert_eq.
Qed.

Lemma get_provider_after_register_witness :
  get_provider "GOOGLEAI" (<["googleai" := {| class_id := 7; NAME := "GoogleAI" |}]> ∅)
  = (Ok {| class_id := 7; NAME := "GoogleAI" |},
     <["googleai" := {| class_id := 7; NAME := "GoogleAI" |}]> ∅).
Proof.
  apply (get_provider_after_register {| class_id := 7; NAME := "GoogleAI" |}
           "GOOGLEAI" ∅).
  - reflexivity.
  - reflexivity.
Defined.

(** The round trip survives every later registration attempt. *)
Lemma get_provider_stable X Y n (reg : registry) :
  get_provider n reg = (Ok X, reg) ->
  get_provider n (register_provider Y reg).2 = (Ok X, (register_provider Y reg).2).
Proof.
  unfold get_provider at 1. intros H.
  destruct (reg !! lower n) eqn:E; [|done]. injection H as ->.
  unfold get_provider. by rewrite (register_provider_keeps X Y _ _ E).
Qed.

Lemma get_provider_missing n : exists msg, get_provider n ∅ = (Raise (KeyError msg), ∅).
Proof. eexists. unfold get_provider. by rewrite lookup_empty. Qed.

Lemma clear_registration_empties (reg : registry) :
  clear_registration reg = (Ok tt, ∅).
Proof. reflexivity. Qed.

End Registry.

(** ** Queries *)

Section Queries.
Import Py Sql.

Lemma first_Some {A} (p : A -> bool) rows x :
  first p rows = Some x -> x ∈ rows /\ p x = true.
Proof.
  unfold first. intros H. apply find_some in H as [H1 H2].
  split; [by apply list_elem_of_In|done].
Qed.

Lemma first_None {A} (p : A -> bool) rows :
  first p rows = None <-> forall x, x ∈ rows -> p x = false.
Proof.
  unfold first. split.
  - intros H x Hx. apply (find_none _ _ H). by apply list_elem_of_In.
  - induction rows as [|y rows IH]; intros H; simpl; [done|].
    rewrite (H y) by apply list_elem_of_here.
    apply IH. intros x Hx. apply H. by apply list_elem_of_further.
Qed.

Lemma first_app {A} (p : A -> bool) l k :
  first p (l ++ k) = match first p l with Some x => Some x | None => first p k end.
Proof.
  unfold first. induction l as [|y l IH]; simpl; [done|].
  by destruct (p y).
Qed.

(** A primary key picks at most one row. *)
Lemma pk_inj {A} (key : A -> Z) rows x y :
  NoDup (key <$> rows) -> x ∈ rows -> y ∈ rows -> key x = key y -> x = y.
Proof.
  induction rows as [|r rows IH]; intros Hnd Hx Hy Heq.
  - by apply elem_of_nil in Hx.
  - rewrite fmap_cons in Hnd. apply NoDup_cons in Hnd as [Hr Hnd].
    apply elem_of_cons in Hx as [->|Hx]; apply elem_of_cons in Hy as [->|Hy].
    + done.
    + exfalso. apply Hr. rewrite Heq. by apply list_elem_of_fmap_2.
    + exfalso. apply Hr. rewrite <- Heq. by apply list_elem_of_fmap_2.
    + by apply IH.
Qed.

(** The row just appended under a fresh key is the row a reload by that
    key finds. *)
Lemma first_fresh {A} (key : A -> Z) rows x :
  Forall (fun r => key r < key x) rows ->
  first (fun r => bool_decide (key r = key x)) (rows ++ [x]) = Some x.
Proof.
  intros Hlt. rewrite first_app.
  assert (first (fun r => bool_decide (key r = key x)) rows = None) as ->.
  { apply first_None. intros r Hr. rewrite Forall_forall in Hlt.
    specialize (Hlt r Hr). apply bool_decide_eq_false. lia. }
  simpl. by rewrite bool_decide_eq_true_2.
Qed.

Lemma table_ok_append {A} (key : A -> Z) rows seq x :
  table_ok key rows seq -> key x = seq -> table_ok key (rows ++ [x]) (seq + 1).
Proof.
  intros [Hnd Hlt] Hx. split.
  - rewrite fmap_app. apply NoDup_app. split; [done|]. split; [|apply NoDup_singleton].
    intros k (r & -> & Hr)%list_elem_of_fmap Hk. simpl in Hk.
    apply list_elem_of_singleton in Hk.
    rewrite Forall_forall in Hlt. specialize (Hlt r Hr). lia.
  - apply Forall_app. split.
    + eapply Forall_impl; [done|]. simpl. intros. lia.
    + apply Forall_singleton. lia.
Qed.

End Queries.

(** ** Deleting rows *)

Section Deletes.
Import Py Sql FileCrud UserCrud.


Lemma delete_file_from_db_present s id f :
  get_file id s = (Ok (Some f), s) ->
  exists s', delete_file_from_db id s = (Ok tt, s') /\
             files (committed s') = filter (fun g => file_id g ≠ id) (files (working s)).
Proof.
  intros H. unfold delete_file_from_db, mbind, M_bind, bind. rewrite H.
  unfold get_file in H. injection H as Hf. apply first_Some in Hf as [_ Hf].
  apply bool_decide_eq_true in Hf. subst id.
  eexists. split; reflexivity.
Qed.

Lemma delete_user_role_from_db_absent s id :
  first (fun r => bool_decide (role_id r = id)) (user_roles (working s)) = None ->
  delete_user_role_from_db id s =
    (Raise (UnmappedInstanceError "builtins.NoneType"), s).
Proof.
  intros H. unfold delete_user_role_from_db, mbind, M_bind, bind. by rewrite H.
Qed.

(** C1. On the sample store, which has no File 7 and no UserRole 7,
    [delete_file_from_db 7] and [delete_user_role_from_db 7] both raise
    [UnmappedInstanceError] (from [db.delete(None)]); the session is left
    as it was. *)
Theorem delete_absent_row_raises :
  delete_file_from_db 7 Samples.session =
    (Raise (UnmappedInstanceError "builtins.NoneType"), Samples.session) /\
  delete_user_role_from_db 7 Samples.session =
    (Raise (UnmappedInstanceError "builtins.NoneType"), Samples.session).
Proof. split; reflexivity. Qed.

(** C7. When the key [apikey_id] belongs to a user other than the caller,
    [delete_user_api_key_from_db] returns without touching the session: the
    key row and every other row stay. *)
Theorem delete_user_api_key_other_owner s apikey_id current_user k :
  NoDup (Sql.apikey_id <$> user_api_keys (working s)) ->
  k ∈ user_api_keys (working s) ->
  Sql.apikey_id k = apikey_id ->
  apikey_user_id k ≠ user_id current_user ->
  delete_user_api_key_from_db apikey_id current_user s = (Ok tt, s).
Proof.
  intros Hpk Hk Hid Howner.
  unfold delete_user_api_key_from_db, mbind, M_bind, bind.
  destruct (first _ _) as [k'|] eqn:E; [|done].
  exfalso. apply first_Some in E as [Hk' Hp].
  apply andb_true_iff in Hp as [H1 H2].
  apply bool_decide_eq_true in H1, H2.
  assert (k' = k) as -> by (eapply (pk_inj Sql.apikey_id); eauto; congruence).
  done.
Qed.

Lemma delete_user_api_key_other_owner_witness :
  delete_user_api_key_from_db 11 (Samples.person 1 "alice") Samples.session
  = (Ok tt, Samples.session).
Proof.
  apply (delete_user_api_key_other_owner Samples.session 11
           (Samples.person 1 "alice")
           {| apikey_id := 11; apikey_display_name := "cli";
              apikey_description := ""; token_jti := "b"; token_exp := 100;
              apikey_user_id := 2 |}).
  - simpl. apply (bool_decide_unpack _). reflexivity.
  - simpl. apply list_elem_of_further, list_elem_of_here.
  - reflexivity.
  - simpl. lia.
Defined.

(** The owner's own call does delete the key. *)
Example delete_user_api_key_owner :
  apikey_id <$> user_api_keys (committed
    (delete_user_api_key_from_db 11 (Samples.person 2 "bob") Samples.session).2)
  = [10].
Proof. reflexivity. Qed.

End Deletes.

(** ** Creating files *)

Section CreateFile.
Import Py Sql FileCrud.

Example derived_path_with_extension :
  derived_path {| folder_id := 1; folder_path := "/mnt/artifacts/case1" |}
               (Samples.upload "notes" "0af3" "txt" 1)
  = "/mnt/artifacts/case1/0af3.txt".
Proof. reflexivity. Qed.

Example os_path_join_cases :
  os_path_join "/a/" "b" = "/a/b" /\ os_path_join "/a" "/b" = "/b" /\
  os_path_join "" "b" = "b".
Proof. repeat split; reflexivity. Qed.

Ltac run := unfold mbind, M_bind, bind, in_db, zoom.

Lemma with_db_same w : with_db (db w) w = w.
Proof. by destruct w. Qed.

(** With the folder missing, the call stops at [folder.path]: the world is
    untouched. *)
Lemma create_file_in_db_no_folder w file :
  get_folder_from_db (file_folder_id file) (db w) = (Ok None, db w) ->
  create_file_in_db file w =
    (Raise (AttributeError "'NoneType' object has no attribute 'path'"), w).
Proof.
  intros H. unfold create_file_in_db. run. rewrite H. simpl.
  by rewrite with_db_same.
Qed.

(** With the folder found, the outcome is decided by the three filesystem
    calls, made in this order on the derived path. *)
Lemma create_file_in_db_folder w file folder :
  get_folder_from_db (file_folder_id file) (db w) = (Ok (Some folder), db w) ->
  let path := derived_path folder file in
  let w1 := log (MagicFromFile path false) w in
  let w2 := log (MagicFromFile path true) w1 in
  let w3 := log (OsStat path) w2 in
  create_file_in_db file w =
    match fs_magic_text (fs w) path with
    | None => (Raise (OSError path), w1)
    | Some text =>
        match fs_magic_mime (fs w) path with
        | None => (Raise (OSError path), w2)
        | Some mime =>
            match fs_stat_size (fs w) path with
            | None => (Raise (OSError path), w3)
            | Some size =>
                (in_db (db_file ← add_file (with_metadata file text mime size);
                        commit;; refresh_file db_file)) w3
            end
        end
    end.
Proof.
  intros H path w1 w2 w3. unfold create_file_in_db. run. rewrite H. simpl.
  rewrite with_db_same. fold (derived_path folder file). fold path.
  subst w1 w2 w3.
  unfold magic_from_file at 1. simpl.
  destruct (fs_magic_text (fs w) path) as [text|]; [|done].
  unfold magic_from_file. simpl.
  destruct (fs_magic_mime (fs w) path) as [mime|]; [|done].
  unfold os_stat_size. simpl.
  destruct (fs_stat_size (fs w) path) as [size|]; [|done].
  reflexivity.
Qed.

(** Add, commit, refresh: the row is written and committed, and the reload
    finds a row, so this part of the call never raises. *)
Lemma persist_file_returns w attrs :
  exists row,
    (in_db (db_file ← add_file attrs; commit;; refresh_file db_file)) w =
      (Ok row, with_db {| committed := persisted (working (db w)) attrs;
                          working := persisted (working (db w)) attrs |} w) /\
    file_id row = file_seq (working (db w)).
Proof.
  run. unfold add_file, commit, refresh_file, on_working, persisted. simpl.
  rewrite first_app. simpl. rewrite bool_decide_eq_true_2 by done.
  destruct (first _ (files (working (db w)))) as [f|] eqn:E.
  - exists f. split; [done|]. apply first_Some in E as [_ E].
    by apply bool_decide_eq_true in E.
  - eexists. split; reflexivity.
Qed.

(** When the primary keys handed out so far are below the sequence, the
    row returned is the new one. *)
Lemma persist_file_fresh w attrs :
  Forall (fun f => file_id f < file_seq (working (db w))) (files (working (db w))) ->
  (in_db (db_file ← add_file attrs; commit;; refresh_file db_file)) w =
    (Ok {| file_id := file_seq (working (db w)); file_attrs := attrs |},
     with_db {| committed := persisted (working (db w)) attrs;
                working := persisted (working (db w)) attrs |} w).
Proof.
  intros Hseq. run. unfold add_file, commit, refresh_file, on_working, persisted.
  simpl.
  pose proof (first_fresh file_id (files (working (db w)))
                {| file_id := file_seq (working (db w)); file_attrs := attrs |} Hseq)
    as Hfirst.
  simpl in Hfirst. by rewrite Hfirst.
Qed.

(** C6. When the folder is found and the filesystem inspection of the
    derived path fails, [create_file_in_db] raises [OSError] and the
    session, committed rows and open transaction alike, is the one it
    started from: no File row is persisted. *)
Theorem create_file_in_db_inspection_failure w file folder :
  get_folder_from_db (file_folder_id file) (db w) = (Ok (Some folder), db w) ->
  inspection_fails (fs w) (derived_path folder file) ->
  exists w',
    create_file_in_db file w = (Raise (OSError (derived_path folder file)), w') /\
    db w' = db w.
Proof.
  intros Hfolder Hfails.
  rewrite (create_file_in_db_folder w file folder Hfolder).
  destruct (fs_magic_text (fs w) _) as [text|] eqn:E1; [|by eexists].
  destruct (fs_magic_mime (fs w) _) as [mime|] eqn:E2; [|by eexists].
  destruct (fs_stat_size (fs w) _) as [size|] eqn:E3; [|by eexists].
  destruct Hfails as [H|[H|H]]; congruence.
Qed.

Lemma create_file_in_db_inspection_failure_witness :
  exists w',
    create_file_in_db (Samples.upload "notes" "0af3" "txt" 1)
                      (Samples.world Samples.empty_disk)
    = (Raise (OSError "/mnt/artifacts/case1/0af3.txt"), w') /\
    db w' = Samples.session.
Proof.
  apply (create_file_in_db_inspection_failure
           (Samples.world Samples.empty_disk)
           (Samples.upload "notes" "0af3" "txt" 1)
           {| folder_id := 1; folder_path := "/mnt/artifacts/case1" |}).
  - reflexivity.
  - left. reflexivity.
Defined.


(** C10. When [folder_id] resolves to no folder, [create_file_in_db] raises
    the [AttributeError] of [folder.path] on [None] and leaves the world as
    it was: no filesystem call is logged, nothing is written to the
    session.  When the folder exists the call never ends in an
    [AttributeError]. *)
Theorem create_file_in_db_requires_folder w file :
  (get_folder_from_db (file_folder_id file) (db w) = (Ok None, db w) ->
   create_file_in_db file w =
     (Raise (AttributeError "'NoneType' object has no attribute 'path'"), w)) /\
  (forall folder,
     get_folder_from_db (file_folder_id file) (db w) = (Ok (Some folder), db w) ->
     forall msg w', create_file_in_db file w ≠ (Raise (AttributeError msg), w')).
Proof.
  split; [apply create_file_in_db_no_folder|].
  intros folder Hfolder msg w'.
  rewrite (create_file_in_db_folder w file folder Hfolder).
  destruct (fs_magic_text (fs w) _) as [text|]; [|done].
  destruct (fs_magic_mime (fs w) _) as [mime|]; [|done].
  destruct (fs_stat_size (fs w) _) as [size|]; [|done].
  destruct (persist_file_returns
              (log (OsStat (derived_path folder file))
                 (log (MagicFromFile (derived_path folder file) true)
                    (log (MagicFromFile (derived_path folder file) false) w)))
              (with_metadata file text mime size)) as (row & -> & _).
  done.
Qed.

Lemma create_file_in_db_requires_folder_witness :
  create_file_in_db (Samples.upload "notes" "0af3" "txt" 9)
                    (Samples.world Samples.disk)
  = (Raise (AttributeError "'NoneType' object has no attribute 'path'"),
     Samples.world Samples.disk) /\
  (forall msg w',
     create_file_in_db (Samples.upload "notes" "0af3" "txt" 1)
                       (Samples.world Samples.disk)
     ≠ (Raise (AttributeError msg), w')).
Proof.
  split.
  - apply (proj1 (create_file_in_db_requires_folder
                    (Samples.world Samples.disk)
                    (Samples.upload "notes" "0af3" "txt" 9))).
    reflexivity.
  - apply (proj2 (create_file_in_db_requires_folder
                    (Samples.world Samples.disk)
                    (Samples.upload "notes" "0af3" "txt" 1))
                 {| folder_id := 1; folder_path := "/mnt/artifacts/case1" |}).
    reflexivity.
Defined.

(** A successful call, for comparison: three filesystem calls, one new
    committed row. *)
Example create_file_in_db_success :
  let '(r, w') := create_file_in_db (Samples.upload "notes" "0af3" "txt" 1)
                                    (Samples.world Samples.disk) in
  (file_id <$> files (committed (db w'))) = [1; 2; 3] /\
  fs_trace w' = [MagicFromFile "/mnt/artifacts/case1/0af3.txt" false;
                 MagicFromFile "/mnt/artifacts/case1/0af3.txt" true;
                 OsStat "/mnt/artifacts/case1/0af3.txt"] /\
  match r with
  | Ok f => file_id f = 3 /\ data_type (file_attrs f) = Some "file:generic"
  | Raise _ => False
  end.
Proof. repeat split; reflexivity. Qed.

End CreateFile.

(** ** Listing the files of a folder *)

Section Listing.
Import Py Sql FileCrud.

#[local] Instance id_desc_total : Total id_desc.
Proof. intros a b. unfold id_desc. lia. Qed.

#[local] Instance id_desc_trans : Transitive id_desc.
Proof. intros a b c. unfold id_desc. lia. Qed.

#[local] Instance id_above_antisym : AntiSymm (=) id_above.
Proof. intros a b. unfold id_above. lia. Qed.

(** Among rows with distinct keys, descending is strictly descending. *)
Lemma id_desc_strict l :
  NoDup (file_id <$> l) -> StronglySorted id_desc l -> StronglySorted id_above l.
Proof.
  intros Hnd Hs. induction Hs as [|a l Hs IH Hall]; [constructor|].
  rewrite fmap_cons in Hnd. apply NoDup_cons in Hnd as [Ha Hnd].
  constructor; [by apply IH|].
  rewrite Forall_forall in Hall |- *. intros b Hb.
  specialize (Hall b Hb). unfold id_desc in Hall. unfold id_above.
  assert (file_id b ≠ file_id a); [|lia].
  intros Heq. apply Ha. rewrite <- Heq. by apply list_elem_of_fmap_2.
Qed.

Lemma NoDup_ids_filter (P : File -> Prop) `{!forall f, Decision (P f)} l :
  NoDup (file_id <$> l) -> NoDup (file_id <$> filter P l).
Proof.
  induction l as [|a l IH]; [done|].
  rewrite fmap_cons. intros [Ha Hnd]%NoDup_cons.
  rewrite filter_cons. case_decide; [|by apply IH].
  rewrite fmap_cons. apply NoDup_cons. split; [|by apply IH].
  intros (b & Hb1 & Hb2)%list_elem_of_fmap.
  apply list_elem_of_filter in Hb2 as [_ Hb2].
  apply Ha. rewrite Hb1. by apply list_elem_of_fmap_2.
Qed.

Lemma get_files_from_db_sorted s folder_id :
  NoDup (file_id <$> files (working s)) ->
  exists l,
    get_files_from_db folder_id s = (Ok l, s) /\
    l ≡ₚ filter (fun f => file_folder_id (file_attrs f) = Some folder_id)
                (files (working s)) /\
    (forall f, f ∈ l <->
               f ∈ files (working s) /\ file_folder_id (file_attrs f) = Some folder_id) /\
    StronglySorted id_above l.
Proof.
  intros Hpk. eexists. split; [reflexivity|].
  assert (merge_sort id_desc
            (filter (fun f => file_folder_id (file_attrs f) = Some folder_id)
               (files (working s)))
          ≡ₚ filter (fun f => file_folder_id (file_attrs f) = Some folder_id)
               (files (working s))) as Hperm by apply merge_sort_Permutation.
  split; [done|]. split.
  - intros f. rewrite Hperm, list_elem_of_filter. tauto.
  - apply id_desc_strict.
    + rewrite Hperm. by apply NoDup_ids_filter.
    + apply StronglySorted_merge_sort; apply _.
Qed.

(** What a successful [create_file_in_db] leaves behind. *)
Lemma create_file_in_db_Ok w file row w' :
  Forall (fun f => file_id f < file_seq (working (db w))) (files (working (db w))) ->
  create_file_in_db file w = (Ok row, w') ->
  file_id row = file_seq (working (db w)) /\
  file_folder_id (file_attrs row) = file_folder_id file /\
  working (db w') = persisted (working (db w)) (file_attrs row) /\
  committed (db w') = working (db w').
Proof.
  intros Hseq.
  destruct (get_folder_from_db (file_folder_id file) (db w)) as [r s] eqn:E.
  assert (s = db w) as -> by (unfold get_folder_from_db in E; congruence).
  destruct r as [[folder|]|e']; [| |unfold get_folder_from_db in E; congruence].
  - rewrite (create_file_in_db_folder w file folder E).
    destruct (fs_magic_text (fs w) _) as [text|]; [|done].
    destruct (fs_magic_mime (fs w) _) as [mime|]; [|done].
    destruct (fs_stat_size (fs w) _) as [size|]; [|done].
    rewrite persist_file_fresh by done.
    intros [= <- <-]. done.
  - by rewrite (create_file_in_db_no_folder w file E).
Qed.

(** The newest row of a folder comes first in its listing. *)
Lemma listing_after_create w file row w' folder_id l :
  table_ok file_id (files (working (db w))) (file_seq (working (db w))) ->
  file_folder_id file = Some folder_id ->
  create_file_in_db file w = (Ok row, w') ->
  get_files_from_db folder_id (db w) = (Ok l, db w) ->
  get_files_from_db folder_id (db w') = (Ok (row :: l), db w') /\
  table_ok file_id (files (working (db w'))) (file_seq (working (db w'))).
Proof.
  intros Hok Hfolder Hcreate Hlist.
  destruct (create_file_in_db_Ok w file row w' (proj2 Hok) Hcreate)
    as (Hid & Hrf & Hw & _).
  assert (files (working (db w')) = (files (working (db w)) ++ [row])%list) as Hfiles.
  { rewrite Hw. unfold persisted. simpl. rewrite <- Hid. by destruct row. }
  assert (file_seq (working (db w')) = file_seq (working (db w)) + 1) as Hseq'
    by (by rewrite Hw).
  assert (table_ok file_id (files (working (db w'))) (file_seq (working (db w'))))
    as Hok' by (rewrite Hfiles, Hseq'; by apply table_ok_append).
  split; [|done].
  unfold get_files_from_db in *. injection Hlist as <-. f_equal. f_equal.
  apply (StronglySorted_unique id_above).
  - apply id_desc_strict.
    + rewrite merge_sort_Permutation. apply NoDup_ids_filter, Hok'.
    + apply StronglySorted_merge_sort; apply _.
  - constructor.
    + apply id_desc_strict.
      * rewrite merge_sort_Permutation. apply NoDup_ids_filter, Hok.
      * apply StronglySorted_merge_sort; apply _.
    + rewrite merge_sort_Permutation. apply Forall_forall.
      intros f [_ Hf]%list_elem_of_filter. destruct Hok as [_ Hlt].
      rewrite Forall_forall in Hlt. specialize (Hlt f Hf).
      unfold id_above. lia.
  - rewrite !merge_sort_Permutation, Hfiles, filter_app, filter_cons, filter_nil.
    rewrite decide_True by congruence.
    by rewrite Permutation_app_comm.
Qed.

(** C8. [get_files_from_db] leaves the session alone and returns the rows
    of the table whose [folder_id] is the one asked for, each once, in
    strictly descending order of [File.id] (primary keys being unique).
    For files A, B, C created one after the other in one folder, the
    listing of that folder is C, B, A followed by what it listed before. *)
Theorem get_files_from_db_listing :
  (forall s folder_id,
     NoDup (file_id <$> files (working s)) ->
     exists l,
       get_files_from_db folder_id s = (Ok l, s) /\
       l ≡ₚ filter (fun f => file_folder_id (file_attrs f) = Some folder_id)
                   (files (working s)) /\
       (forall f, f ∈ l <->
          f ∈ files (working s) /\ file_folder_id (file_attrs f) = Some folder_id) /\
       StronglySorted id_above l) /\
  (forall w folder_id A B C a b c w1 w2 w3 before,
     table_ok file_id (files (working (db w))) (file_seq (working (db w))) ->
     file_folder_id A = Some folder_id ->
     file_folder_id B = Some folder_id ->
     file_folder_id C = Some folder_id ->
     get_files_from_db folder_id (db w) = (Ok before, db w) ->
     create_file_in_db A w = (Ok a, w1) ->
     create_file_in_db B w1 = (Ok b, w2) ->
     create_file_in_db C w2 = (Ok c, w3) ->
     get_files_from_db folder_id (db w3) = (Ok (c :: b :: a :: before), db w3) /\
     file_id a < file_id b < file_id c).
Proof.
  split; [apply get_files_from_db_sorted|].
  intros w folder_id A B C a b c w1 w2 w3 before Hok HA HB HC Hbefore HcA HcB HcC.
  destruct (listing_after_create w A a w1 folder_id before Hok HA HcA Hbefore)
    as [H1 Hok1].
  destruct (listing_after_create w1 B b w2 folder_id _ Hok1 HB HcB H1)
    as [H2 Hok2].
  destruct (listing_after_create w2 C c w3 folder_id _ Hok2 HC HcC H2)
    as [H3 _].
  split; [done|].
  destruct (create_file_in_db_Ok w A a w1 (proj2 Hok) HcA) as (Ha & _ & Hw1 & _).
  destruct (create_file_in_db_Ok w1 B b w2 (proj2 Hok1) HcB) as (Hb & _ & Hw2 & _).
  destruct (create_file_in_db_Ok w2 C c w3 (proj2 Hok2) HcC) as (Hc & _ & _ & _).
  rewrite Ha, Hb, Hc, Hw2, Hw1. simpl. lia.
Qed.

Lemma get_files_from_db_listing_witness :
  (exists l,
     get_files_from_db 1 Samples.session = (Ok l, Samples.session) /\
     l ≡ₚ filter (fun f => file_folder_id (file_attrs f) = Some 1)
                 (files (working Samples.session)) /\
     (forall f, f ∈ l <->
        f ∈ files (working Samples.session) /\ file_folder_id (file_attrs f) = Some 1) /\
     StronglySorted id_above l) /\
  (exists a b c w3,
     get_files_from_db 1 (db w3) =
       (Ok [c; b; a; Samples.stored 2 "report.txt" 1 None (Some 21);
            Samples.stored 1 "disk.img" 1 (Some 20) None], db w3) /\
     file_id a < file_id b < file_id c).
Proof.
  split.
  - apply (proj1 get_files_from_db_listing Samples.session 1).
    apply (bool_decide_unpack _). reflexivity.
  - eexists _, _, _, _.
    eapply (proj2 get_files_from_db_listing (Samples.world Samples.disk) 1
              (Samples.upload "A" "ua" "txt" 1)
              (Samples.upload "B" "ub" "txt" 1)
              (Samples.upload "C" "uc" "txt" 1)).
    + split; apply (bool_decide_unpack _); reflexivity.
    + reflexivity.
    + reflexivity.
    + reflexivity.
    + reflexivity.
    + vm_compute. reflexivity.
    + vm_compute. reflexivity.
    + vm_compute. reflexivity.
Defined.

End Listing.

(** ** Creating users *)

Section CreateUser.
Import Py Sql UserCrud.

Lemma wf_db_with_everyone d : wf_db d -> wf_db (with_everyone d).
Proof.
  intros [? ? ? ? ? ? ?]. split; simpl; try done.
  by apply table_ok_append.
Qed.

Lemma wf_db_enrolled d u g : wf_db d -> wf_db (enrolled d u g).
Proof.
  intros [? ? ? ? ? ? ?]. split; simpl; try done.
  by apply table_ok_append.
Qed.

(** With an "Everyone" group in the table, the user is added as a member
    of the first such group; no group is written. *)
Lemma create_user_in_db_reuses s u g :
  wf_db (working s) ->
  first is_everyone (groups (working s)) = Some g ->
  create_user_in_db u s =
    (Ok (columns (User_ u) (user_seq (working s))),
     {| committed := enrolled (working s) u g;
        working := enrolled (working s) u g |}).
Proof.
  intros Hwf Hg.
  unfold create_user_in_db, get_group_by_name_from_db, mbind, M_bind, bind.
  fold is_everyone. rewrite Hg. simpl.
  unfold refresh_user, on_working. simpl.
  pose proof (first_fresh user_id (users (working s))
                (columns (User_ u) (user_seq (working s)))
                (proj2 (wf_users _ Hwf))) as Hfirst.
  simpl in Hfirst. rewrite Hfirst. reflexivity.
Qed.

(** Without one, the group is created and committed first. *)
Lemma create_user_in_db_creates s u :
  wf_db (working s) ->
  first is_everyone (groups (working s)) = None ->
  let g := {| group_id := group_seq (working s); group_name := "Everyone" |} in
  create_user_in_db u s =
    (Ok (columns (User_ u) (user_seq (working s))),
     {| committed := enrolled (with_everyone (working s)) u g;
        working := enrolled (with_everyone (working s)) u g |}).
Proof.
  intros Hwf Hg g.
  unfold create_user_in_db, get_group_by_name_from_db, mbind, M_bind, bind.
  fold is_everyone. rewrite Hg. simpl.
  unfold create_group_in_db, refresh_group, mbind, M_bind, bind. simpl.
  pose proof (first_fresh group_id (groups (working s)) g
                (proj2 (wf_groups _ Hwf))) as Hgroup.
  subst g.
  simpl in Hgroup. rewrite Hgroup. simpl.
  unfold refresh_user, on_working. simpl.
  pose proof (first_fresh user_id (users (working s))
                (columns (User_ u) (user_seq (working s)))
                (proj2 (wf_users _ Hwf))) as Hfirst.
  simpl in Hfirst. rewrite Hfirst. reflexivity.
Qed.

Lemma groups_named_everyone_nil rows :
  first is_everyone rows = None <->
  filter (fun g => group_name g = "Everyone") rows = [].
Proof.
  unfold first, is_everyone. induction rows as [|g rows IH]; simpl; [done|].
  rewrite filter_cons. destruct (decide (group_name g = "Everyone")) as [Hg|Hg].
  - rewrite bool_decide_eq_true_2 by done. done.
  - rewrite bool_decide_eq_false_2 by done. done.
Qed.

Lemma sample_store_wf : wf_db Samples.store.
Proof.
  split; try split; simpl; apply (bool_decide_unpack _); reflexivity.
Qed.

(** C2. On a well-formed store, two calls of [create_user_in_db] in
    sequence both succeed and return the two new users, and there is one
    "Everyone" group row [g] of which both are members in the committed
    store.  The first user is a member as soon as the first call returns.
    The second call writes no group.  If there was no "Everyone" group to
    start with, [g] is the only one afterwards; if there was one, the table
    of groups is the one the calls started from. *)
Theorem create_user_in_db_everyone s u1 u2 :
  wf_db (working s) ->
  exists usr1 s1 usr2 s2 g,
    create_user_in_db u1 s = (Ok usr1, s1) /\
    create_user_in_db u2 s1 = (Ok usr2, s2) /\
    usr1 = columns (User_ u1) (user_seq (working s)) /\
    usr2 = columns (User_ u2) (user_seq (working s) + 1) /\
    usr1 ∈ users (committed s2) /\ usr2 ∈ users (committed s2) /\
    group_name g = "Everyone" /\
    g ∈ groups (committed s1) /\ g ∈ groups (committed s2) /\
    (user_id usr1, group_id g) ∈ user_group (committed s1) /\
    (user_id usr1, group_id g) ∈ user_group (committed s2) /\
    (user_id usr2, group_id g) ∈ user_group (committed s2) /\
    groups (committed s2) = groups (committed s1) /\
    (groups_named "Everyone" (working s) = [] ->
     groups_named "Everyone" (committed s2) = [g]) /\
    (groups_named "Everyone" (working s) ≠ [] ->
     groups (committed s2) = groups (working s)).
Proof.
  intros Hwf.
  destruct (first is_everyone (groups (working s))) as [g|] eqn:Hg.
  - pose proof (wf_db_enrolled (working s) u1 g Hwf) as Hwf1.
    assert (first is_everyone (groups (enrolled (working s) u1 g)) = Some g)
      as Hg1 by done.
    eexists _, _, _, _, g.
    split; [by apply create_user_in_db_reuses|].
    split; [by apply create_user_in_db_reuses|].
    apply first_Some in Hg as [Hin Hname].
    apply bool_decide_eq_true in Hname.
    simpl. repeat split; try done.
    + apply elem_of_app. left. apply elem_of_app. right.
      apply list_elem_of_here.
    + apply elem_of_app. right. apply list_elem_of_here.
    + apply elem_of_app. right. apply list_elem_of_here.
    + apply elem_of_app. left. apply elem_of_app. right.
      apply list_elem_of_here.
    + apply elem_of_app. right. apply list_elem_of_here.
    + intros Hnil. unfold groups_named in Hnil.
      assert (g ∈ filter (fun g => group_name g = "Everyone") (groups (working s)))
        as Hmem by (by apply list_elem_of_filter).
      rewrite Hnil in Hmem. by apply elem_of_nil in Hmem.
  - set (g := {| group_id := group_seq (working s); group_name := "Everyone" |}).
    pose proof (wf_db_enrolled _ u1 g (wf_db_with_everyone _ Hwf)) as Hwf1.
    assert (first is_everyone
              (groups (enrolled (with_everyone (working s)) u1 g)) = Some g)
      as Hg1 by (simpl; rewrite first_app, Hg; done).
    eexists _, _, _, _, g.
    split; [by apply create_user_in_db_creates|].
    split; [by apply create_user_in_db_reuses|].
    simpl. repeat split; try done.
    + apply elem_of_app. left. apply elem_of_app. right.
      apply list_elem_of_here.
    + apply elem_of_app. right. apply list_elem_of_here.
    + apply elem_of_app. right. apply list_elem_of_here.
    + apply elem_of_app. right. apply list_elem_of_here.
    + apply elem_of_app. right. apply list_elem_of_here.
    + apply elem_of_app. left. apply elem_of_app. right.
      apply list_elem_of_here.
    + apply elem_of_app. right. apply list_elem_of_here.
    + intros _. unfold groups_named. simpl.
      rewrite filter_app. apply groups_named_everyone_nil in Hg. rewrite Hg.
      done.
    + intros Hne. exfalso. apply Hne. by apply groups_named_everyone_nil.
Qed.

Lemma create_user_in_db_everyone_witness :
  exists usr1 s1 usr2 s2 g,
    create_user_in_db (Samples.signup "carol") Samples.session = (Ok usr1, s1) /\
    create_user_in_db (Samples.signup "dave") s1 = (Ok usr2, s2) /\
    usr1 = columns (User_ (Samples.signup "carol")) 3 /\
    usr2 = columns (User_ (Samples.signup "dave")) 4 /\
    usr1 ∈ users (committed s2) /\ usr2 ∈ users (committed s2) /\
    group_name g = "Everyone" /\
    g ∈ groups (committed s1) /\ g ∈ groups (committed s2) /\
    (user_id usr1, group_id g) ∈ user_group (committed s1) /\
    (user_id usr1, group_id g) ∈ user_group (committed s2) /\
    (user_id usr2, group_id g) ∈ user_group (committed s2) /\
    groups (committed s2) = groups (committed s1) /\
    (groups_named "Everyone" Samples.store = [] ->
     groups_named "Everyone" (committed s2) = [g]) /\
    (groups_named "Everyone" Samples.store ≠ [] ->
     groups (committed s2) = groups Samples.store).
Proof.
  apply (create_user_in_db_everyone Samples.session
           (Samples.signup "carol") (Samples.signup "dave")).
  split; try split; simpl; apply (bool_decide_unpack _); reflexivity.
Defined.

(** The two calls on the sample store: one group row, two memberships. *)
Example create_two_users :
  let s1 := (create_user_in_db (Samples.signup "carol") Samples.session).2 in
  let s2 := (create_user_in_db (Samples.signup "dave") s1).2 in
  groups (committed s2) = [{| group_id := 1; group_name := "Everyone" |}] /\
  user_group (committed s2) = [(3, 1); (4, 1)].
Proof. split; reflexivity. Qed.

End CreateUser.

(** ** Deleting a workflow *)

Section DeleteWorkflow.
Import Py Sql Models.

Lemma Workflow_tasks_cascade_delete : delete ∈ Workflow_tasks_cascade.
Proof. apply (bool_decide_unpack _). reflexivity. Qed.

Lemma Task_files_cascade_no_delete :
  (delete ∉ Task_input_files_cascade) /\ (delete ∉ Task_output_files_cascade).
Proof. split; apply (bool_decide_unpack _); reflexivity. Qed.

(** Without the [delete] cascade the children keep their rows; only the
    foreign key of those that pointed at a deleted parent is cleared. *)
Lemma one_to_many_keeps_rows {C} cascade (fk : C -> option Z) null_fk parents
    children (key : C -> Z) :
  delete ∉ cascade ->
  (forall c, key (null_fk c) = key c) ->
  (key <$> one_to_many_on_delete cascade fk null_fk parents children)
  = (key <$> children).
Proof.
  intros Hno Hkey. unfold one_to_many_on_delete.
  rewrite bool_decide_eq_false_2 by done.
  rewrite <- list_fmap_compose. apply list_fmap_ext.
  intros i c _. simpl. by destruct (references fk parents c).
Qed.

Lemma one_to_many_keeps_unrelated {C} cascade (fk : C -> option Z) null_fk
    parents children c :
  delete ∉ cascade ->
  c ∈ children -> references fk parents c = false ->
  c ∈ one_to_many_on_delete cascade fk null_fk parents children.
Proof.
  intros Hno Hc Href. unfold one_to_many_on_delete.
  rewrite bool_decide_eq_false_2 by done.
  apply list_elem_of_fmap. exists c. by rewrite Href.
Qed.

Lemma delete_workflow_from_db_present s wid w :
  get_workflow wid s = (Ok (Some w), s) ->
  let d := working s in
  let gone := task_id <$> filter (fun t => task_workflow_id t = wid) (tasks d) in
  let d' := set_workflow_graph d
              (filter (fun v => workflow_id v ≠ wid) (workflows d))
              (filter (fun t => task_workflow_id t ≠ wid) (tasks d))
              (files_after gone (files d))
              (filter (fun p : Z * Z => p.2 ≠ wid) (file_workflow d)) in
  delete_workflow_from_db wid s = (Ok tt, {| committed := d'; working := d' |}).
Proof.
  intros H d gone d'.
  unfold delete_workflow_from_db, mbind, M_bind, bind. rewrite H.
  unfold get_workflow in H. injection H as Hw.
  apply first_Some in Hw as [_ Hw]. apply bool_decide_eq_true in Hw. subst wid.
  unfold delete_workflow.
  rewrite (bool_decide_eq_true_2 _ Workflow_tasks_cascade_delete).
  reflexivity.
Qed.

Lemma files_after_ids gone fs : (file_id <$> files_after gone fs) = (file_id <$> fs).
Proof.
  unfold files_after.
  rewrite (one_to_many_keeps_rows _ _ _ _ _ file_id);
    [|apply Task_files_cascade_no_delete|done].
  rewrite (one_to_many_keeps_rows _ _ _ _ _ file_id);
    [|apply Task_files_cascade_no_delete|done].
  done.
Qed.

(** C3. Deleting an existing workflow succeeds; the committed tasks are
    then the tasks that do not reference it, in their order; the workflow
    row is gone; and the table of files has the same rows, identifier by
    identifier, as before: a file that referenced one of the deleted tasks
    as input or output is still there, and a file that referenced none of
    them is unchanged. *)
Theorem delete_workflow_cascades_to_tasks_only s wid w :
  get_workflow wid s = (Ok (Some w), s) ->
  exists s',
    delete_workflow_from_db wid s = (Ok tt, s') /\
    tasks (committed s') =
      filter (fun t => task_workflow_id t ≠ wid) (tasks (working s)) /\
    (forall t, t ∈ tasks (committed s') <->
               t ∈ tasks (working s) /\ task_workflow_id t ≠ wid) /\
    (forall v, v ∈ workflows (committed s') <->
               v ∈ workflows (working s) /\ workflow_id v ≠ wid) /\
    (file_id <$> files (committed s')) = (file_id <$> files (working s)) /\
    (forall f, f ∈ files (working s) ->
               exists f', f' ∈ files (committed s') /\ file_id f' = file_id f) /\
    (forall f gone,
       gone = (task_id <$> filter (fun t => task_workflow_id t = wid) (tasks (working s))) ->
       f ∈ files (working s) ->
       references (fun f => task_input_id (file_attrs f)) gone f = false ->
       references (fun f => task_output_id (file_attrs f)) gone f = false ->
       f ∈ files (committed s')).
Proof.
  intros H. eexists. split; [by apply (delete_workflow_from_db_present s wid w)|].
  simpl. split; [done|].
  split; [intros t; rewrite list_elem_of_filter; tauto|].
  split; [intros v; rewrite list_elem_of_filter; tauto|].
  split; [apply files_after_ids|]. split.
  - intros f Hf.
    apply (list_elem_of_fmap_2 file_id) in Hf.
    rewrite <- (files_after_ids
                  (task_id <$> filter (fun t => task_workflow_id t = wid)
                                      (tasks (working s)))) in Hf.
    apply list_elem_of_fmap in Hf as (f' & Hid & Hf'). by exists f'.
  - intros f gone -> Hf Hin Hout. unfold files_after.
    apply one_to_many_keeps_unrelated;
      [apply Task_files_cascade_no_delete| |done].
    apply one_to_many_keeps_unrelated;
      [apply Task_files_cascade_no_delete|done|done].
Qed.

Lemma delete_workflow_cascades_to_tasks_only_witness :
  exists s',
    delete_workflow_from_db 3 Samples.session = (Ok tt, s') /\
    tasks (committed s') =
      filter (fun t => task_workflow_id t ≠ 3) (tasks Samples.store) /\
    (forall t, t ∈ tasks (committed s') <->
               t ∈ tasks Samples.store /\ task_workflow_id t ≠ 3) /\
    (forall v, v ∈ workflows (committed s') <->
               v ∈ workflows Samples.store /\ workflow_id v ≠ 3) /\
    (file_id <$> files (committed s')) = (file_id <$> files Samples.store) /\
    (forall f, f ∈ files Samples.store ->
               exists f', f' ∈ files (committed s') /\ file_id f' = file_id f) /\
    (forall f gone,
       gone = (task_id <$> filter (fun t => task_workflow_id t = 3) (tasks Samples.store)) ->
       f ∈ files Samples.store ->
       references (fun f => task_input_id (file_attrs f)) gone f = false ->
       references (fun f => task_output_id (file_attrs f)) gone f = false ->
       f ∈ files (committed s')).
Proof.
  apply (delete_workflow_cascades_to_tasks_only Samples.session 3 (Samples.flow 3)).
  reflexivity.
Defined.

(** On the sample store: workflow 3 owns tasks 20 and 21, file 1 is the
    input of task 20 and file 2 the output of task 21.  After the deletion
    task 22 and workflow 4 remain, both files remain with their task
    references cleared, and the association rows of workflow 3 are gone. *)
Example delete_workflow_sample :
  let s' := (delete_workflow_from_db 3 Samples.session).2 in
  (task_id <$> tasks (committed s')) = [22] /\
  (workflow_id <$> workflows (committed s')) = [4] /\
  files (committed s') =
    [Samples.stored 1 "disk.img" 1 None None;
     Samples.stored 2 "report.txt" 1 None None] /\
  file_workflow (committed s') = [(1, 4)].
Proof. repeat split; reflexivity. Qed.

Example delete_workflow_absent :
  delete_workflow_from_db 9 Samples.session =
    (Raise (UnmappedInstanceError "builtins.NoneType"), Samples.session).
Proof. reflexivity. Qed.

End DeleteWorkflow.

(** ** The system endpoint *)

Section SystemConfig.
Import Py Configs.

Example get_system_config_settings :
  get_system_config Samples.settings (Ok VNone) =
    Ok (VDict [("active_llms",
                VList [VDict [("enabled", VBool true); ("model", VStr "gemma")]]);
               ("data_types", VList [VStr "text/csv"; VStr "text/json"]);
               ("active_cloud", VNone)]).
Proof. reflexivity. Qed.

(** C9. For settings without an [llms] table the handler takes the default
    [[]] and calls [.values()] on it: it raises [AttributeError], and the
    response is a 500, whatever the cloud provider lookup would give. *)
Theorem get_system_config_without_llms active_cloud :
  get_system_config Samples.settings_without_llms active_cloud =
    Raise (AttributeError "'list' object has no attribute 'values'") /\
  status_code (get_system_config Samples.settings_without_llms active_cloud) = 500.
Proof. split; reflexivity. Qed.

(** Every service being a table, the list comprehension keeps the enabled
    ones, in order. *)
Lemma enabled_services_tables (tables : list (list (string * value))) :
  enabled_services (VDict <$> tables) =
    Ok (VDict <$> List.filter (fun t => truthy (dict_get "enabled" t (VBool false))) tables).
Proof.
  induction tables as [|t tables IH]; [done|].
  rewrite fmap_cons. unfold enabled_services; fold enabled_services.
  rewrite IH. simpl.
  by destruct (truthy (dict_get "enabled" t (VBool false))).
Qed.

(** With an [llms] table whose entries are tables, and a cloud provider
    lookup that returns, the handler answers 200 with the three keys. *)
Lemma get_system_config_well_formed config (llms : list (string * list (string * value))) cloud :
  dict_get "llms" config (VList []) = VDict (prod_map id VDict <$> llms) ->
  get_system_config config (Ok cloud) =
    Ok (VDict [("active_llms",
                VList (VDict <$> List.filter
                         (fun t => truthy (dict_get "enabled" t (VBool false)))
                         (snd <$> llms)));
               ("data_types", VList [VStr "text/csv"; VStr "text/json"]);
               ("active_cloud", cloud)]).
Proof.
  intros H. unfold get_system_config. rewrite H. simpl.
  rewrite <- list_fmap_compose.
  replace (snd ∘ prod_map id VDict <$> llms) with (VDict <$> (snd <$> llms)).
  - rewrite enabled_services_tables. reflexivity.
  - rewrite <- list_fmap_compose. apply list_fmap_ext. by intros i [k t] _.
Qed.

(** A service entry that is not a table makes the handler raise as well. *)
Example get_system_config_scalar_service :
  get_system_config [("llms", VDict [("default", VStr "ollama")])] (Ok VNone) =
    Raise (AttributeError "'str' object has no attribute 'get'").
Proof. reflexivity. Qed.

End SystemConfig.

(* ===================================================================== *)
(** * Further results                                                     *)
(* ===================================================================== *)

(** ** More on the provider registry *)

Section RegistryMore.
Import Py LLM.

Lemma is_upper_bound c : is_upper c = true -> (N_of_ascii c + 32 < 256)%N.
Proof.
  destruct c as [[] [] [] [] [] [] [] []]; vm_compute; intros; congruence || reflexivity.
Qed.

Lemma N_of_lowered c :
  is_upper c = true ->
  N_of_ascii (ascii_of_N (N_of_ascii c + 32)) = (N_of_ascii c + 32)%N.
Proof. intros H. apply N_ascii_embedding. by apply is_upper_bound. Qed.

Lemma lower_char_same_letter c d :
  lower_char c = lower_char d -> same_letter c d = true.
Proof.
  unfold lower_char, same_letter.
  destruct (is_upper c) eqn:Ec, (is_upper d) eqn:Ed; intros H; simpl.
  - apply (f_equal N_of_ascii) in H. rewrite !N_of_lowered in H by done.
    assert (N_of_ascii c = N_of_ascii d) as -> by lia.
    by rewrite N.eqb_refl.
  - apply (f_equal N_of_ascii) in H. rewrite N_of_lowered in H by done.
    rewrite <- H, N.eqb_refl, !orb_true_r. done.
  - apply (f_equal N_of_ascii) in H. rewrite N_of_lowered in H by done.
    rewrite H, N.eqb_refl, !orb_true_r. done.
  - subst d. by rewrite N.eqb_refl.
Qed.

Lemma lower_eq_upto_case s : forall t, lower s = lower t -> eq_upto_case s t = true.
Proof.
  induction s as [|c s IH]; intros [|d t] H; simpl in *; try done.
  injection H as Hc Hs.
  by rewrite (lower_char_same_letter _ _ Hc), (IH _ Hs).
Qed.

(** X1. [get_provider] is blind to letter case: two names equal up to case get
    the same answer, the same class or the same [KeyError]. *)
Theorem get_provider_case_insensitive n m (reg : registry) :
  eq_upto_case n m = true -> get_provider n reg = get_provider m reg.
Proof.
  intros H. unfold get_provider. by rewrite (eq_upto_case_lower _ _ H).
Qed.

Lemma get_provider_case_insensitive_witness :
  get_provider "vertexAI" ∅ = get_provider "VERTEXai" ∅.
Proof.
  apply (get_provider_case_insensitive "vertexAI" "VERTEXai" ∅). reflexivity.
Defined.

(** In every reachable registry an entry sits under the lower-cased NAME of
    its class. *)
Lemma reachable_keys reg :
  reachable reg -> forall k X, reg !! k = Some X -> k = lower (NAME X).
Proof.
  induction 1 as [|reg c _ IH|reg n _ IH|reg _ IH]; intros k X.
  - by rewrite lookup_empty.
  - unfold register_provider. cbv beta zeta.
    destruct (reg !! lower (NAME c)) eqn:E; simpl; [apply IH|].
    destruct (decide (lower (NAME c) = k)) as [<-|Hne].
    + rewrite lookup_insert_eq. by intros [= ->].
    + rewrite lookup_insert_ne by done. apply IH.
  - unfold get_provider. destruct (reg !! lower n); apply IH.
  - simpl. by rewrite lookup_empty.
Qed.

(** X2. In every reachable registry, [get_provider n] returns only a class whose
    NAME is [n] up to letter case, and leaves the registry as it is. *)
Theorem get_provider_returns_namesake reg n X reg' :
  reachable reg ->
  get_provider n reg = (Ok X, reg') ->
  eq_upto_case n (NAME X) = true /\ reg' = reg.
Proof.
  intros Hreach. unfold get_provider.
  destruct (reg !! lower n) as [Y|] eqn:E; [|done].
  intros [= -> <-]. split; [|done].
  apply lower_eq_upto_case. by apply (reachable_keys reg Hreach).
Qed.

Lemma get_provider_returns_namesake_witness :
  eq_upto_case "OLLAMA" "Ollama" = true /\
  (register_provider {| class_id := 1; NAME := "Ollama" |} ∅).2 =
  (register_provider {| class_id := 1; NAME := "Ollama" |} ∅).2.
Proof.
  apply (get_provider_returns_namesake
           (register_provider {| class_id := 1; NAME := "Ollama" |} ∅).2
           "OLLAMA" {| class_id := 1; NAME := "Ollama" |}
           (register_provider {| class_id := 1; NAME := "Ollama" |} ∅).2).
  - apply reachable_register, reachable_initial.
  - reflexivity.
Defined.

(** X3. The first registration wins for good: once [get_provider n] returns a
    class, it returns that class after any further sequence of
    [register_provider] calls, accepted or refused. *)
Theorem registered_provider_survives X n (reg : registry) (later : list provider_class) :
  get_provider n reg = (Ok X, reg) ->
  get_provider n (foldl (fun r c => (register_provider c r).2) reg later) =
    (Ok X, foldl (fun r c => (register_provider c r).2) reg later).
Proof.
  revert reg. induction later as [|c later IH]; intros reg H; [done|].
  simpl. apply IH. unfold get_provider in *.
  destruct (reg !! lower n) as [Y|] eqn:E; [|done]. injection H as ->.
  by rewrite (register_provider_keeps X c _ _ E).
Qed.

Lemma registered_provider_survives_witness :
  get_provider "ollama"
    (foldl (fun r c => (register_provider c r).2)
       (<["ollama" := {| class_id := 1; NAME := "Ollama" |}]> ∅)
       [{| class_id := 2; NAME := "OLLAMA" |}; {| class_id := 3; NAME := "VertexAI" |}])
  = (Ok {| class_id := 1; NAME := "Ollama" |},
     foldl (fun r c => (register_provider c r).2)
       (<["ollama" := {| class_id := 1; NAME := "Ollama" |}]> ∅)
       [{| class_id := 2; NAME := "OLLAMA" |}; {| class_id := 3; NAME := "VertexAI" |}]).
Proof.
  apply (registered_provider_survives {| class_id := 1; NAME := "Ollama" |} "ollama"
           (<["ollama" := {| class_id := 1; NAME := "Ollama" |}]> ∅)
           [{| class_id := 2; NAME := "OLLAMA" |}; {| class_id := 3; NAME := "VertexAI" |}]).
  reflexivity.
Defined.

(** X4. Registrations under names that differ beyond letter case do not
    interfere: each has the outcome it would have without the other, and
    the two orders end in the same mapping. *)
Theorem register_provider_independent X Y (reg : registry) :
  lower (NAME X) ≠ lower (NAME Y) ->
  (register_provider X (register_provider Y reg).2).1 = (register_provider X reg).1 /\
  (register_provider Y (register_provider X reg).2).1 = (register_provider Y reg).1 /\
  (register_provider Y (register_provider X reg).2).2 =
  (register_provider X (register_provider Y reg).2).2.
Proof.
  intros Hne. unfold register_provider. cbv beta zeta.
  destruct (reg !! lower (NAME X)) eqn:EX, (reg !! lower (NAME Y)) eqn:EY; simpl;
    rewrite ?EX, ?EY, ?lookup_insert_ne, ?EX, ?EY by done; simpl; try done.
  repeat split. by apply insert_insert_ne.
Qed.

Lemma register_provider_independent_witness :
  (register_provider {| class_id := 1; NAME := "Ollama" |}
     (register_provider {| class_id := 2; NAME := "VertexAI" |} ∅).2).1
  = (register_provider {| class_id := 1; NAME := "Ollama" |} ∅).1 /\
  (register_provider {| class_id := 2; NAME := "VertexAI" |}
     (register_provider {| class_id := 1; NAME := "Ollama" |} ∅).2).1
  = (register_provider {| class_id := 2; NAME := "VertexAI" |} ∅).1 /\
  (register_provider {| class_id := 2; NAME := "VertexAI" |}
     (register_provider {| class_id := 1; NAME := "Ollama" |} ∅).2).2 =
  (register_provider {| class_id := 1; NAME := "Ollama" |}
     (register_provider {| class_id := 2; NAME := "VertexAI" |} ∅).2).2.
Proof.
  apply (register_provider_independent
           {| class_id := 1; NAME := "Ollama" |}
           {| class_id := 2; NAME := "VertexAI" |} ∅).
  simpl. discriminate.
Defined.

(** X5. [clear_registration] forgets every provider: afterwards any lookup
    raises [KeyError] and any class, registered before or not, registers
    again. *)
Theorem clear_registration_forgets X n (reg : registry) :
  get_provider n (clear_registration reg).2 =
    (Raise (KeyError ("No such provider: " ++ lower n)), ∅) /\
  register_provider X (clear_registration reg).2 =
    (Ok tt, {[lower (NAME X) := X]}).
Proof.
  split.
  - unfold get_provider. simpl. by rewrite lookup_empty.
  - unfold register_provider. simpl. by rewrite lookup_empty.
Qed.

End RegistryMore.

(** ** More on the system endpoint *)

Section SystemConfigMore.
Import Py Configs.

Lemma enabled_services_Ok services :
  Forall (fun v => is_dict v = true) services ->
  enabled_services services = Ok (List.filter service_enabled services).
Proof.
  induction 1 as [|v services Hv _ IH]; [done|].
  destruct v; try done.
  unfold enabled_services; fold enabled_services. rewrite IH. simpl.
  by destruct (truthy _).
Qed.

Lemma enabled_services_dicts services kept :
  enabled_services services = Ok kept ->
  Forall (fun v => is_dict v = true) services.
Proof.
  revert kept. induction services as [|v services IH]; intros kept H; [constructor|].
  unfold enabled_services in H; fold enabled_services in H.
  destruct v; try done. simpl in H.
  destruct (enabled_services services) as [kept'|e] eqn:E; [|done].
  constructor; [done|]. by apply (IH kept').
Qed.

(** The first service that is not a table stops the list comprehension. *)
Lemma enabled_services_Raise before v after :
  Forall (fun v => is_dict v = true) before ->
  is_dict v = false ->
  enabled_services (before ++ v :: after) = Raise (no_attribute v "get").
Proof.
  intros Hbefore Hv. induction Hbefore as [|u before Hu _ IH]; simpl.
  - by destruct v.
  - destruct u; try done.
    unfold enabled_services; fold enabled_services.
    simpl in IH. rewrite IH. done.
Qed.

(** X6. The handler returns an object exactly when the [llms] entry of the
    settings is a table whose values are all tables and the cloud provider
    lookup returns; the object then has the keys [active_llms], [data_types]
    and [active_cloud], in this order, [active_llms] holding the services
    whose [enabled] is truthy, in the order of the settings. *)
Theorem get_system_config_Ok config cloud response :
  get_system_config config cloud = Ok response <->
  exists llms active_cloud,
    dict_get "llms" config (VList []) = VDict llms /\
    Forall (fun v => is_dict v = true) (snd <$> llms) /\
    cloud = Ok active_cloud /\
    response =
      VDict [("active_llms", VList (List.filter service_enabled (snd <$> llms)));
             ("data_types", VList [VStr "text/csv"; VStr "text/json"]);
             ("active_cloud", active_cloud)].
Proof.
  unfold get_system_config. split.
  - destruct (dict_get "llms" config (VList [])) as [| | | | |llms]; try done.
    simpl. destruct (enabled_services (snd <$> llms)) as [kept|e] eqn:E; [|done].
    simpl. destruct cloud as [active_cloud|e]; [|done]. simpl.
    intros [= <-]. exists llms, active_cloud.
    pose proof (enabled_services_dicts _ _ E) as Hd.
    rewrite (enabled_services_Ok _ Hd) in E. injection E as <-. done.
  - intros (llms & active_cloud & -> & Hd & -> & ->). simpl.
    by rewrite (enabled_services_Ok _ Hd).
Qed.

(** X7. A service that is not a table makes the handler raise the
    [AttributeError] of [service.get] for the first such service, whatever
    the cloud provider lookup gives. *)
Theorem get_system_config_bad_service config cloud llms before v after :
  dict_get "llms" config (VList []) = VDict llms ->
  (snd <$> llms) = (before ++ v :: after)%list ->
  Forall (fun v => is_dict v = true) before ->
  is_dict v = false ->
  get_system_config config cloud = Raise (no_attribute v "get") /\
  status_code (get_system_config config cloud) = 500.
Proof.
  intros Hllms Hsplit Hbefore Hv.
  assert (get_system_config config cloud = Raise (no_attribute v "get")) as ->; [|done].
  unfold get_system_config. rewrite Hllms. simpl.
  change (list_fmap _ _ snd llms) with (snd <$> llms).
  by rewrite Hsplit, (enabled_services_Raise _ _ _ Hbefore Hv).
Qed.

Lemma get_system_config_bad_service_witness :
  get_system_config
    [("llms", VDict [("ollama", VDict [("enabled", VBool true)]);
                     ("default", VStr "ollama")])] (Ok VNone)
  = Raise (AttributeError "'str' object has no attribute 'get'") /\
  status_code (get_system_config
    [("llms", VDict [("ollama", VDict [("enabled", VBool true)]);
                     ("default", VStr "ollama")])] (Ok VNone)) = 500.
Proof.
  apply (get_system_config_bad_service
           [("llms", VDict [("ollama", VDict [("enabled", VBool true)]);
                            ("default", VStr "ollama")])] (Ok VNone)
           [("ollama", VDict [("enabled", VBool true)]); ("default", VStr "ollama")]
           [VDict [("enabled", VBool true)]] (VStr "ollama") []).
  - reflexivity.
  - reflexivity.
  - repeat constructor.
  - reflexivity.
Defined.

(** With the services well formed, the outcome of the cloud provider lookup
    is the outcome of the handler: its exception is the handler's. *)
Theorem get_system_config_cloud_raises config llms e :
  dict_get "llms" config (VList []) = VDict llms ->
  Forall (fun v => is_dict v = true) (snd <$> llms) ->
  get_system_config config (Raise e) = Raise e.
Proof.
  intros Hllms Hd. unfold get_system_config. rewrite Hllms. simpl.
  change (list_fmap _ _ snd llms) with (snd <$> llms).
  by rewrite (enabled_services_Ok _ Hd).
Qed.

Lemma get_system_config_cloud_raises_witness :
  get_system_config Samples.settings (Raise (KeyError "cloud")) =
  Raise (KeyError "cloud").
Proof.
  apply (get_system_config_cloud_raises Samples.settings
           [("ollama", VDict [("enabled", VBool true); ("model", VStr "gemma")]);
            ("vertexai", VDict [("enabled", VBool false)])]).
  - reflexivity.
  - repeat constructor.
Defined.

End SystemConfigMore.

(** ** More on files *)

Section FilesMore.
Import Py Sql FileCrud.

(** A reload by primary key finds the row that carries the key. *)
Lemma first_pk {A} (key : A -> Z) rows x :
  NoDup (key <$> rows) -> x ∈ rows ->
  first (fun r => bool_decide (key r = key x)) rows = Some x.
Proof.
  intros Hnd Hx.
  destruct (first _ rows) as [y|] eqn:E.
  - apply first_Some in E as [Hy Hk]. apply bool_decide_eq_true in Hk.
    f_equal. by apply (pk_inj key rows).
  - rewrite first_None in E. specialize (E x Hx).
    by rewrite bool_decide_eq_true_2 in E.
Qed.

Lemma first_absent {A} (key : A -> Z) rows id :
  id ∉ (key <$> rows) -> first (fun r => bool_decide (key r = id)) rows = None.
Proof.
  intros Hid. apply first_None. intros r Hr. apply bool_decide_eq_false.
  intros <-. apply Hid. by apply list_elem_of_fmap_2.
Qed.

Lemma filter_keeps_all {A} (P : A -> Prop) `{!forall x, Decision (P x)} l :
  Forall P l -> filter P l = l.
Proof.
  induction 1 as [|x l Hx _ IH]; [done|].
  rewrite filter_cons, decide_True by done. by rewrite IH.
Qed.

(** X8. [get_file_from_db] is a point lookup: it returns each stored row under
    its identifier, signals an identifier that no row carries by [None]
    rather than by an exception, and leaves the session alone. *)
Theorem get_file_from_db_lookup s :
  NoDup (file_id <$> files (working s)) ->
  (forall f, f ∈ files (working s) ->
     get_file_from_db (file_id f) s = (Ok (Some f), s)) /\
  (forall id, id ∉ (file_id <$> files (working s)) ->
     get_file_from_db id s = (Ok None, s)).
Proof.
  intros Hpk. split.
  - intros f Hf. unfold get_file_from_db, get_file. by rewrite (first_pk file_id).
  - intros id Hid. unfold get_file_from_db, get_file. by rewrite (first_absent file_id).
Qed.

Lemma get_file_from_db_lookup_witness :
  (forall f, f ∈ files Samples.store ->
     get_file_from_db (file_id f) Samples.session = (Ok (Some f), Samples.session)) /\
  (forall id, id ∉ (file_id <$> files Samples.store) ->
     get_file_from_db id Samples.session = (Ok None, Samples.session)).
Proof.
  apply (get_file_from_db_lookup Samples.session).
  apply (bool_decide_unpack _). reflexivity.
Defined.

Lemma files_after_create w file row w' :
  Forall (fun f => file_id f < file_seq (working (db w))) (files (working (db w))) ->
  create_file_in_db file w = (Ok row, w') ->
  files (working (db w')) = (files (working (db w)) ++ [row])%list /\
  file_id row = file_seq (working (db w)) /\
  file_seq (working (db w')) = file_seq (working (db w)) + 1 /\
  committed (db w') = working (db w').
Proof.
  intros Hseq Hcreate.
  destruct (create_file_in_db_Ok w file row w' Hseq Hcreate) as (Hid & _ & Hw & Hc).
  repeat split; try done.
  - rewrite Hw. unfold persisted. simpl. rewrite <- Hid. by destruct row.
  - by rewrite Hw.
Qed.

(** X9. A created file is found again under the identifier it was given, an
    identifier that no row carried before the call. *)
Theorem create_file_in_db_then_get w file row w' :
  table_ok file_id (files (working (db w))) (file_seq (working (db w))) ->
  create_file_in_db file w = (Ok row, w') ->
  get_file_from_db (file_id row) (db w') = (Ok (Some row), db w') /\
  get_file_from_db (file_id row) (db w) = (Ok None, db w).
Proof.
  intros [Hpk Hseq] Hcreate.
  destruct (files_after_create w file row w' Hseq Hcreate) as (Hfiles & Hid & _ & _).
  unfold get_file_from_db, get_file. rewrite Hfiles. split.
  - rewrite first_fresh; [done|]. by rewrite Hid.
  - rewrite (first_absent file_id); [done|].
    intros (f & Hf & Hin)%list_elem_of_fmap.
    rewrite Forall_forall in Hseq. specialize (Hseq f Hin). lia.
Qed.

Lemma create_file_in_db_then_get_witness :
  exists row w',
    create_file_in_db (Samples.upload "notes" "0af3" "txt" 1)
                      (Samples.world Samples.disk) = (Ok row, w') /\
    get_file_from_db (file_id row) (db w') = (Ok (Some row), db w') /\
    get_file_from_db (file_id row) Samples.session = (Ok None, Samples.session).
Proof.
  eexists _, _. split; [vm_compute; reflexivity|].
  eapply (create_file_in_db_then_get (Samples.world Samples.disk)
            (Samples.upload "notes" "0af3" "txt" 1)).
  - split; apply (bool_decide_unpack _); reflexivity.
  - vm_compute. reflexivity.
Defined.

Ltac run_world := unfold mbind, M_bind, bind, in_db, zoom.

(** X10. The row that a successful [create_file_in_db] returns: the columns of
    the dict, with [magic_text], [magic_mime] and [filesize] set to what the
    filesystem answers for the derived path (overriding any value given),
    and [data_type] defaulted to ["file:generic"] when missing or empty. *)
Theorem create_file_in_db_metadata w file folder row w' :
  Forall (fun f => file_id f < file_seq (working (db w))) (files (working (db w))) ->
  get_folder_from_db (file_folder_id file) (db w) = (Ok (Some folder), db w) ->
  create_file_in_db file w = (Ok row, w') ->
  let a := file_attrs row in
  let path := derived_path folder file in
  magic_text a = fs_magic_text (fs w) path /\
  magic_mime a = fs_magic_mime (fs w) path /\
  filesize a = fs_stat_size (fs w) path /\
  data_type a = (if truthy_str (data_type file) then data_type file
                 else Some "file:generic") /\
  display_name a = display_name file /\ uuid a = uuid file /\
  extension a = extension file /\ file_folder_id a = file_folder_id file /\
  task_input_id a = task_input_id file /\ task_output_id a = task_output_id file.
Proof.
  intros Hseq Hfolder. rewrite (create_file_in_db_folder w file folder Hfolder).
  cbv zeta.
  destruct (fs_magic_text (fs w) _) as [text|]; [|done].
  destruct (fs_magic_mime (fs w) _) as [mime|]; [|done].
  destruct (fs_stat_size (fs w) _) as [size|]; [|done].
  rewrite persist_file_fresh by done.
  intros [= <- _]. simpl. done.
Qed.

Lemma create_file_in_db_metadata_witness :
  exists row,
    magic_text (file_attrs row) = Some "ASCII text" /\
    magic_mime (file_attrs row) = Some "text/plain" /\
    filesize (file_attrs row) = Some 12 /\
    data_type (file_attrs row) = Some "file:generic" /\
    display_name (file_attrs row) = Some "notes" /\
    uuid (file_attrs row) = Some "0af3" /\
    extension (file_attrs row) = Some "txt" /\
    file_folder_id (file_attrs row) = Some 1 /\
    task_input_id (file_attrs row) = None /\ task_output_id (file_attrs row) = None.
Proof.
  eexists.
  eapply (create_file_in_db_metadata (Samples.world Samples.disk)
            (Samples.upload "notes" "0af3" "txt" 1)
            {| folder_id := 1; folder_path := "/mnt/artifacts/case1" |}).
  - apply (bool_decide_unpack _). reflexivity.
  - reflexivity.
  - vm_compute. reflexivity.
Defined.

(** X11. The filesystem calls of [create_file_in_db] once the folder is found:
    at least one, at most the three calls [magic.from_file],
    [magic.from_file(mime=True)], [os.stat], in this order, all on the
    derived path; a call that returns a row has made all three.  The
    filesystem itself is never changed. *)
Theorem create_file_in_db_fs_calls w file folder r w' :
  get_folder_from_db (file_folder_id file) (db w) = (Ok (Some folder), db w) ->
  create_file_in_db file w = (r, w') ->
  let path := derived_path folder file in
  let all := [MagicFromFile path false; MagicFromFile path true; OsStat path] in
  fs w' = fs w /\
  exists calls,
    fs_trace w' = (fs_trace w ++ calls)%list /\
    calls ≠ [] /\ calls `prefix_of` all /\
    (forall row, r = Ok row -> calls = all).
Proof.
  intros Hfolder. rewrite (create_file_in_db_folder w file folder Hfolder).
  cbv zeta.
  destruct (fs_magic_text (fs w) _) as [text|].
  2:{ intros [= <- <-]. split; [done|].
      exists [MagicFromFile (derived_path folder file) false].
      repeat split; try done. by eexists. }
  destruct (fs_magic_mime (fs w) _) as [mime|].
  2:{ intros [= <- <-]. split; [done|].
      exists [MagicFromFile (derived_path folder file) false;
              MagicFromFile (derived_path folder file) true].
      repeat split; try done.
      - simpl. by rewrite <- app_assoc.
      - by eexists. }
  destruct (fs_stat_size (fs w) _) as [size|].
  2:{ intros [= <- <-]. split; [done|].
      eexists. repeat split; try done. simpl. by rewrite <- !app_assoc. }
  destruct (persist_file_returns
              (log (OsStat (derived_path folder file))
                 (log (MagicFromFile (derived_path folder file) true)
                    (log (MagicFromFile (derived_path folder file) false) w)))
              (with_metadata file text mime size)) as (row & -> & _).
  intros [= <- <-]. split; [done|].
  eexists. repeat split; try done. simpl. by rewrite <- !app_assoc.
Qed.

Lemma create_file_in_db_fs_calls_witness :
  fs (create_file_in_db (Samples.upload "notes" "0af3" "txt" 1)
        (Samples.world Samples.empty_disk)).2 = Samples.empty_disk /\
  exists calls,
    fs_trace (create_file_in_db (Samples.upload "notes" "0af3" "txt" 1)
                (Samples.world Samples.empty_disk)).2 = ([] ++ calls)%list /\
    calls ≠ [] /\
    calls `prefix_of` [MagicFromFile "/mnt/artifacts/case1/0af3.txt" false;
                       MagicFromFile "/mnt/artifacts/case1/0af3.txt" true;
                       OsStat "/mnt/artifacts/case1/0af3.txt"] /\
    (forall row,
       (create_file_in_db (Samples.upload "notes" "0af3" "txt" 1)
          (Samples.world Samples.empty_disk)).1 = Ok row ->
       calls = [MagicFromFile "/mnt/artifacts/case1/0af3.txt" false;
                MagicFromFile "/mnt/artifacts/case1/0af3.txt" true;
                OsStat "/mnt/artifacts/case1/0af3.txt"]).
Proof.
  apply (create_file_in_db_fs_calls (Samples.world Samples.empty_disk)
           (Samples.upload "notes" "0af3" "txt" 1)
           {| folder_id := 1; folder_path := "/mnt/artifacts/case1" |}).
  - reflexivity.
  - apply surjective_pairing.
Defined.







(** X14. Deleting the file that was just created brings the table of files back
    to what it was; the sequence has moved on, so the identifier is not
    handed out again. *)
Theorem create_then_delete_file w file row w' :
  table_ok file_id (files (working (db w))) (file_seq (working (db w))) ->
  create_file_in_db file w = (Ok row, w') ->
  exists s'',
    delete_file_from_db (file_id row) (db w') = (Ok tt, s'') /\
    files (committed s'') = files (working (db w)) /\
    file_seq (committed s'') = file_seq (working (db w)) + 1.
Proof.
  intros [Hpk Hseq] Hcreate.
  destruct (files_after_create w file row w' Hseq Hcreate) as (Hfiles & Hid & Hseq' & _).
  assert (get_file (file_id row) (db w') = (Ok (Some row), db w')) as Hget.
  { unfold get_file. rewrite Hfiles, first_fresh; [done|]. by rewrite Hid. }
  eexists. split.
  { unfold delete_file_from_db, mbind, M_bind, bind. rewrite Hget. reflexivity. }
  simpl. split; [|done].
  rewrite Hfiles, filter_app, filter_cons, filter_nil.
  rewrite decide_False by (intros H; by apply H).
  rewrite app_nil_r. apply filter_keeps_all.
  eapply Forall_impl; [done|]. simpl. intros. lia.
Qed.

Lemma create_then_delete_file_witness :
  exists row w' s'',
    create_file_in_db (Samples.upload "notes" "0af3" "txt" 1)
                      (Samples.world Samples.disk) = (Ok row, w') /\
    delete_file_from_db (file_id row) (db w') = (Ok tt, s'') /\
    files (committed s'') = files Samples.store /\
    file_seq (committed s'') = 3 + 1.
Proof.
  eexists _, _.
  assert (create_file_in_db (Samples.upload "notes" "0af3" "txt" 1)
            (Samples.world Samples.disk) = (Ok _, _)) as Hcreate
    by (vm_compute; reflexivity).
  destruct (create_then_delete_file (Samples.world Samples.disk)
              (Samples.upload "notes" "0af3" "txt" 1) _ _
              ltac:(split; apply (bool_decide_unpack _); reflexivity) Hcreate)
    as (s'' & H1 & H2 & H3).
  exists s''. split; [exact Hcreate|]. split; [exact H1|]. split; [exact H2|exact H3].
Defined.

#[local] Instance id_desc_total' : Total id_desc.
Proof. intros a b. unfold id_desc. lia. Qed.

#[local] Instance id_desc_trans' : Transitive id_desc.
Proof. intros a b c. unfold id_desc. lia. Qed.

#[local] Instance id_above_antisym' : AntiSymm (=) id_above.
Proof. intros a b. unfold id_above. lia. Qed.

Lemma StronglySorted_filter {A} (R : relation A) (P : A -> Prop)
    `{!forall x, Decision (P x)} l :
  StronglySorted R l -> StronglySorted R (filter P l).
Proof.
  induction 1 as [|x l Hs IH Hall]; [constructor|].
  rewrite filter_cons. case_decide; [|done].
  constructor; [done|].
  rewrite Forall_forall in Hall |- *. intros y [_ Hy]%list_elem_of_filter. by apply Hall.
Qed.

Lemma listing_strict (P : File -> Prop) `{!forall f, Decision (P f)} rows :
  NoDup (file_id <$> rows) ->
  StronglySorted id_above (merge_sort id_desc (filter P rows)).
Proof.
  intros Hpk. apply id_desc_strict.
  - rewrite merge_sort_Permutation. by apply NoDup_ids_filter.
  - apply StronglySorted_merge_sort; apply _.
Qed.

(** X15. Creating a file in one folder leaves the listing of every other folder
    as it was. *)
Theorem create_file_in_db_other_folder w file row w' folder_id :
  Forall (fun f => file_id f < file_seq (working (db w))) (files (working (db w))) ->
  file_folder_id file ≠ Some folder_id ->
  create_file_in_db file w = (Ok row, w') ->
  (get_files_from_db folder_id (db w')).1 = (get_files_from_db folder_id (db w)).1.
Proof.
  intros Hseq Hfolder Hcreate.
  destruct (create_file_in_db_Ok w file row w' Hseq Hcreate) as (_ & Hrf & _).
  destruct (files_after_create w file row w' Hseq Hcreate) as (Hfiles & _).
  unfold get_files_from_db. simpl. f_equal. f_equal.
  rewrite Hfiles, filter_app, filter_cons, filter_nil.
  rewrite decide_False by congruence. by rewrite app_nil_r.
Qed.

Lemma create_file_in_db_other_folder_witness :
  exists w',
    (get_files_from_db 2 (db w')).1 = (get_files_from_db 2 Samples.session).1.
Proof.
  eexists.
  eapply (create_file_in_db_other_folder (Samples.world Samples.disk)
            (Samples.upload "notes" "0af3" "txt" 1) _ _ 2).
  - apply (bool_decide_unpack _). reflexivity.
  - discriminate.
  - vm_compute. reflexivity.
Defined.

(** X16. After a stored file is deleted, the listing of a folder is the listing
    from before without that file, the order of the others unchanged. *)
Theorem get_files_from_db_after_delete s f folder_id before :
  NoDup (file_id <$> files (working s)) ->
  f ∈ files (working s) ->
  get_files_from_db folder_id s = (Ok before, s) ->
  exists s',
    delete_file_from_db (file_id f) s = (Ok tt, s') /\
    get_files_from_db folder_id s' =
      (Ok (filter (fun g => file_id g ≠ file_id f) before), s').
Proof.
  intros Hpk Hf Hbefore.
  assert (get_file (file_id f) s = (Ok (Some f), s)) as Hget
    by (unfold get_file; by rewrite (first_pk file_id)).
  eexists. split.
  { unfold delete_file_from_db, mbind, M_bind, bind. rewrite Hget. reflexivity. }
  unfold get_files_from_db in *. injection Hbefore as <-. simpl. f_equal. f_equal.
  apply (StronglySorted_unique id_above).
  - apply listing_strict.
    pose proof (NoDup_ids_filter (fun g => file_id g ≠ file_id f) _ Hpk) as H. done.
  - apply StronglySorted_filter. by apply listing_strict.
  - rewrite !merge_sort_Permutation, !list_filter_filter.
    rewrite (list_filter_iff _
               (fun a => file_id a ≠ file_id f /\
                         file_folder_id (file_attrs a) = Some folder_id));
      [done|]. intros x. tauto.
Qed.

Lemma get_files_from_db_after_delete_witness :
  exists s',
    delete_file_from_db 1 Samples.session = (Ok tt, s') /\
    get_files_from_db 1 s' =
      (Ok (filter (fun g => file_id g ≠ 1)
             [Samples.stored 2 "report.txt" 1 None (Some 21);
              Samples.stored 1 "disk.img" 1 (Some 20) None]), s').
Proof.
  apply (get_files_from_db_after_delete Samples.session
           (Samples.stored 1 "disk.img" 1 (Some 20) None) 1).
  - apply (bool_decide_unpack _). reflexivity.
  - simpl. apply list_elem_of_here.
  - reflexivity.
Defined.

End FilesMore.

(** ** More on users *)

Section UsersMore.
Import Py Sql UserCrud.

Lemma first_app_Some {A} (p : A -> bool) l k x :
  first p l = Some x -> first p (l ++ k) = Some x.
Proof. intros H. by rewrite first_app, H. Qed.

Lemma first_app_None {A} (p : A -> bool) l x :
  first p l = None -> first p (l ++ [x]) = if p x then Some x else None.
Proof. intros H. rewrite first_app, H. simpl. by destruct (p x). Qed.

(** What one call of [create_user_in_db] does to a well-formed store. *)
Lemma create_user_in_db_effect s u :
  wf_db (working s) ->
  exists g d,
    (d = working s \/ d = with_everyone (working s)) /\
    group_name g = "Everyone" /\ g ∈ groups d /\ wf_db d /\
    create_user_in_db u s =
      (Ok (columns (User_ u) (user_seq (working s))),
       {| committed := enrolled d u g; working := enrolled d u g |}).
Proof.
  intros Hwf.
  destruct (first is_everyone (groups (working s))) as [g|] eqn:Hg.
  - exists g, (working s). split; [by left|].
    pose proof (first_Some _ _ _ Hg) as [Hin Hname].
    apply bool_decide_eq_true in Hname.
    split; [done|]. split; [done|]. split; [done|].
    by apply create_user_in_db_reuses.
  - exists {| group_id := group_seq (working s); group_name := "Everyone" |},
           (with_everyone (working s)).
    split; [by right|]. split; [done|]. split.
    { simpl. apply elem_of_app. right. apply list_elem_of_here. }
    split; [by apply wf_db_with_everyone|].
    by apply create_user_in_db_creates.
Qed.

(** X17. [create_user_in_db] on a well-formed store returns the new user, keeps
    the store well formed and commits; it adds one row to the table of
    users and one membership, of the new user in a group named "Everyone",
    and leaves files, folders, API keys, roles, workflows and tasks as they
    were. *)
Theorem create_user_in_db_invariant s u :
  wf_db (working s) ->
  exists usr s' g,
    create_user_in_db u s = (Ok usr, s') /\
    wf_db (working s') /\ committed s' = working s' /\
    users (working s') = (users (working s) ++ [usr])%list /\
    group_name g = "Everyone" /\ g ∈ groups (working s') /\
    user_group (working s') = (user_group (working s) ++ [(user_id usr, group_id g)])%list /\
    files (working s') = files (working s) /\
    folders (working s') = folders (working s) /\
    user_api_keys (working s') = user_api_keys (working s) /\
    user_roles (working s') = user_roles (working s) /\
    workflows (working s') = workflows (working s) /\
    tasks (working s') = tasks (working s) /\
    file_workflow (working s') = file_workflow (working s).
Proof.
  intros Hwf.
  destruct (create_user_in_db_effect s u Hwf) as (g & d & Hd & Hname & Hg & Hwfd & Hrun).
  eexists _, _, g. split; [exact Hrun|].
  split; [by apply wf_db_enrolled|].
  split; [done|].
  destruct Hd as [-> | ->]; simpl; repeat (split; [done|]); done.
Qed.

Lemma create_user_in_db_invariant_witness :
  exists usr s' g,
    create_user_in_db (Samples.signup "carol") Samples.session = (Ok usr, s') /\
    wf_db (working s') /\ committed s' = working s' /\
    users (working s') = (users Samples.store ++ [usr])%list /\
    group_name g = "Everyone" /\ g ∈ groups (working s') /\
    user_group (working s') = (user_group Samples.store ++ [(user_id usr, group_id g)])%list /\
    files (working s') = files Samples.store /\
    folders (working s') = folders Samples.store /\
    user_api_keys (working s') = user_api_keys Samples.store /\
    user_roles (working s') = user_roles Samples.store /\
    workflows (working s') = workflows Samples.store /\
    tasks (working s') = tasks Samples.store /\
    file_workflow (working s') = file_workflow Samples.store.
Proof.
  apply (create_user_in_db_invariant Samples.session (Samples.signup "carol")).
  split; try split; simpl; apply (bool_decide_unpack _); reflexivity.
Defined.

Lemma first_app_miss {A} (p : A -> bool) l x :
  p x = false -> first p (l ++ [x]) = first p l.
Proof.
  intros H. rewrite first_app. destruct (first p l); [done|]. simpl. by rewrite H.
Qed.

(** X18. A created user is found again by identifier, an identifier no row
    carried before, and by username when that username found nobody before.
    Lookups by another username, email or uuid than the new user's answer
    as they did before the call. *)
Theorem create_user_in_db_then_get s u usr s' :
  wf_db (working s) ->
  create_user_in_db u s = (Ok usr, s') ->
  get_user_from_db (user_id usr) s' = (Ok (Some usr), s') /\
  get_user_from_db (user_id usr) s = (Ok None, s) /\
  (get_user_by_username_from_db (uc_username u) s = (Ok None, s) ->
   get_user_by_username_from_db (uc_username u) s' = (Ok (Some usr), s')) /\
  (forall name, name ≠ uc_username u ->
     (get_user_by_username_from_db name s').1 = (get_user_by_username_from_db name s).1) /\
  (forall mail, Some mail ≠ uc_email u ->
     (get_user_by_email_from_db mail s').1 = (get_user_by_email_from_db mail s).1) /\
  (forall id, id ≠ uc_uuid u ->
     (get_user_by_uuid_from_db id s').1 = (get_user_by_uuid_from_db id s).1).
Proof.
  intros Hwf Hcreate.
  destruct (create_user_in_db_effect s u Hwf) as (g & d & Hd & _ & _ & _ & Hrun).
  rewrite Hrun in Hcreate. injection Hcreate as Husr <-.
  assert (users (enrolled d u g) = (users (working s) ++ [usr])%list) as Husers
    by (rewrite <- Husr; by destruct Hd as [-> | ->]).
  pose proof (wf_users _ Hwf) as [Hpk Hseq].
  unfold get_user_from_db, get_user_by_username_from_db, get_user_by_email_from_db,
    get_user_by_uuid_from_db.
  cbn [working fst].
  rewrite Husers. repeat split.
  - rewrite first_fresh; [done|]. by rewrite <- Husr.
  - rewrite (first_absent user_id); [done|].
    intros (x & Hx & Hin)%list_elem_of_fmap.
    rewrite Forall_forall in Hseq. specialize (Hseq x Hin).
    rewrite <- Husr in Hx. simpl in Hx. lia.
  - intros [= H]. rewrite (first_app_None _ _ _ H).
    rewrite <- Husr. simpl. by rewrite bool_decide_eq_true_2.
  - intros name Hne. rewrite first_app_miss; [done|].
    rewrite <- Husr. simpl. by apply bool_decide_eq_false_2.
  - intros mail Hne. rewrite first_app_miss; [done|].
    rewrite <- Husr. simpl. apply bool_decide_eq_false_2. congruence.
  - intros id Hne. rewrite first_app_miss; [done|].
    rewrite <- Husr. simpl. apply bool_decide_eq_false_2. congruence.
Qed.

Lemma create_user_in_db_then_get_witness :
  exists usr s',
    get_user_from_db (user_id usr) s' = (Ok (Some usr), s') /\
    get_user_by_username_from_db "carol" s' = (Ok (Some usr), s') /\
    (get_user_by_username_from_db "alice" s').1 =
      (get_user_by_username_from_db "alice" Samples.session).1.
Proof.
  eexists _, _.
  assert (create_user_in_db (Samples.signup "carol") Samples.session = (Ok _, _))
    as Hcreate by (vm_compute; reflexivity).
  destruct (create_user_in_db_then_get Samples.session (Samples.signup "carol") _ _
              sample_store_wf Hcreate) as (H1 & _ & H3 & H4 & _ & _).
  split; [exact H1|]. split.
  - apply H3. reflexivity.
  - apply H4. discriminate.
Defined.

(** The row that the filter of [delete_user_api_key_from_db] selects. *)
Lemma owned_key_lookup (keys : list UserApiKey) k uid :
  NoDup (apikey_id <$> keys) -> k ∈ keys ->
  first (fun k' => bool_decide (apikey_id k' = apikey_id k)
                   && bool_decide (apikey_user_id k' = uid)) keys
  = if decide (apikey_user_id k = uid) then Some k else None.
Proof.
  intros Hpk Hk. destruct (first _ keys) as [k'|] eqn:E.
  - apply first_Some in E as [Hk' Hp]. apply andb_true_iff in Hp as [H1 H2].
    apply bool_decide_eq_true in H1, H2.
    assert (k' = k) as -> by (by apply (pk_inj apikey_id keys)).
    by rewrite decide_True.
  - rewrite first_None in E. specialize (E k Hk).
    rewrite bool_decide_eq_true_2 in E by done. simpl in E.
    apply bool_decide_eq_false in E. by rewrite decide_False.
Qed.

Lemma missing_key_lookup (keys : list UserApiKey) id uid :
  id ∉ (apikey_id <$> keys) ->
  first (fun k' => bool_decide (apikey_id k' = id)
                   && bool_decide (apikey_user_id k' = uid)) keys = None.
Proof.
  intros Hid. apply first_None. intros k Hk.
  rewrite bool_decide_eq_false_2; [done|].
  intros <-. apply Hid. by apply list_elem_of_fmap_2.
Qed.

(** X19. The owner's delete removes that key and no other and commits; a second
    delete of the same key by the owner changes nothing. *)
Theorem delete_user_api_key_from_db_owner s k current_user :
  NoDup (apikey_id <$> user_api_keys (working s)) ->
  k ∈ user_api_keys (working s) ->
  apikey_user_id k = user_id current_user ->
  exists s',
    delete_user_api_key_from_db (apikey_id k) current_user s = (Ok tt, s') /\
    committed s' = working s' /\
    (forall k', k' ∈ user_api_keys (working s') <->
                k' ∈ user_api_keys (working s) /\ k' ≠ k) /\
    delete_user_api_key_from_db (apikey_id k) current_user s' = (Ok tt, s').
Proof.
  intros Hpk Hk Howner.
  set (d' := set_user_api_keys (working s)
               (filter (fun g => apikey_id g ≠ apikey_id k) (user_api_keys (working s)))).
  exists {| committed := d'; working := d' |}.
  split; [|split; [done|split]].
  - unfold delete_user_api_key_from_db, mbind, M_bind, bind.
    rewrite (owned_key_lookup _ k) by done. by rewrite decide_True.
  - intros k'. simpl. rewrite list_elem_of_filter. split.
    + intros [Hne Hk']. split; [done|]. by intros ->.
    + intros [Hk' Hne]. split; [|done]. intros Hid. apply Hne.
      by apply (pk_inj apikey_id (user_api_keys (working s))).
  - unfold delete_user_api_key_from_db, mbind, M_bind, bind. simpl.
    rewrite missing_key_lookup; [done|].
    intros (g & Hid & Hg)%list_elem_of_fmap.
    apply list_elem_of_filter in Hg as [Hg _]. by apply Hg.
Qed.

Lemma delete_user_api_key_from_db_owner_witness :
  exists s',
    delete_user_api_key_from_db 11 (Samples.person 2 "bob") Samples.session = (Ok tt, s') /\
    committed s' = working s' /\
    (forall k', k' ∈ user_api_keys (working s') <->
       k' ∈ user_api_keys Samples.store /\
       k' ≠ {| apikey_id := 11; apikey_display_name := "cli";
               apikey_description := ""; token_jti := "b"; token_exp := 100;
               apikey_user_id := 2 |}) /\
    delete_user_api_key_from_db 11 (Samples.person 2 "bob") s' = (Ok tt, s').
Proof.
  apply (delete_user_api_key_from_db_owner Samples.session
           {| apikey_id := 11; apikey_display_name := "cli";
              apikey_description := ""; token_jti := "b"; token_exp := 100;
              apikey_user_id := 2 |} (Samples.person 2 "bob")).
  - apply (bool_decide_unpack _). reflexivity.
  - simpl. apply list_elem_of_further, list_elem_of_here.
  - reflexivity.
Defined.

Lemma filter_iff_on {A} (P Q : A -> Prop)
    `{!forall x, Decision (P x), !forall x, Decision (Q x)} (l : list A) :
  (forall x, x ∈ l -> P x <-> Q x) -> filter P l = filter Q l.
Proof.
  induction l as [|a l IH]; intros Hiff; [done|].
  rewrite !filter_cons.
  rewrite IH by (intros x Hx; apply Hiff; by apply list_elem_of_further).
  apply decide_ext. apply Hiff. apply list_elem_of_here.
Qed.

(** X20. Whatever key a user asks to delete, the keys that
    [get_user_api_keys_from_db] lists for any other user stay the same. *)
Theorem delete_user_api_key_from_db_frame s apikey_id current_user other :
  NoDup (Sql.apikey_id <$> user_api_keys (working s)) ->
  user_id other ≠ user_id current_user ->
  (get_user_api_keys_from_db other
     (delete_user_api_key_from_db apikey_id current_user s).2).1
  = (get_user_api_keys_from_db other s).1.
Proof.
  intros Hpk Hother.
  unfold delete_user_api_key_from_db, mbind, M_bind, bind.
  destruct (first _ _) as [k|] eqn:E; [|done].
  apply first_Some in E as [Hk Hp]. apply andb_true_iff in Hp as [_ Hown].
  apply bool_decide_eq_true in Hown.
  unfold get_user_api_keys_from_db. simpl. f_equal.
  rewrite list_filter_filter. apply filter_iff_on. intros k' Hin. split; [tauto|].
  intros Hk'. split; [done|]. intros Hid.
  assert (k' = k) by (by apply (pk_inj Sql.apikey_id (user_api_keys (working s)))).
  congruence.
Qed.

Lemma delete_user_api_key_from_db_frame_witness :
  (get_user_api_keys_from_db (Samples.person 1 "alice")
     (delete_user_api_key_from_db 11 (Samples.person 2 "bob") Samples.session).2).1
  = (get_user_api_keys_from_db (Samples.person 1 "alice") Samples.session).1.
Proof.
  apply (delete_user_api_key_from_db_frame Samples.session 11
           (Samples.person 2 "bob") (Samples.person 1 "alice")).
  - apply (bool_decide_unpack _). reflexivity.
  - simpl. lia.
Defined.

Ltac run_store := unfold mbind, M_bind, bind, in_session, zoom.

(** What [create_user_api_key_in_db] does when the sequence is ahead of the
    keys handed out. *)
Lemma create_user_api_key_in_db_effect st apikey :
  Forall (fun k => apikey_id k < apikey_seq st) (user_api_keys (working (session st))) ->
  let k := {| apikey_id := apikey_seq st;
              apikey_display_name := akc_display_name apikey;
              apikey_description := akc_description apikey;
              token_jti := akc_token_jti apikey;
              token_exp := akc_token_exp apikey;
              apikey_user_id := akc_user_id apikey |} in
  let d := set_user_api_keys (working (session st))
             (user_api_keys (working (session st)) ++ [k]) in
  create_user_api_key_in_db apikey st =
    (Ok k, {| session := {| committed := d; working := d |};
              apikey_seq := apikey_seq st + 1; role_seq := role_seq st |}).
Proof.
  intros Hseq k d. unfold create_user_api_key_in_db. run_store.
  unfold add_user_api_key, commit, refresh_user_api_key, on_working. simpl.
  pose proof (first_fresh apikey_id (user_api_keys (working (session st))) k Hseq)
    as Hfirst.
  subst k d. simpl in Hfirst. by rewrite Hfirst.
Qed.



(** X22. A created key can be deleted by the user it was created for, which
    brings the table of keys back to what it was; the same request by any
    other user leaves the session, the new key included, untouched. *)
Theorem create_then_delete_user_api_key st apikey k st' current_user :
  table_ok apikey_id (user_api_keys (working (session st))) (apikey_seq st) ->
  create_user_api_key_in_db apikey st = (Ok k, st') ->
  (user_id current_user = akc_user_id apikey ->
   exists s'',
     delete_user_api_key_from_db (apikey_id k) current_user (session st') = (Ok tt, s'') /\
     user_api_keys (committed s'') = user_api_keys (working (session st))) /\
  (user_id current_user ≠ akc_user_id apikey ->
   delete_user_api_key_from_db (apikey_id k) current_user (session st')
   = (Ok tt, session st')).
Proof.
  intros Hok Hcreate.
  rewrite (create_user_api_key_in_db_effect st apikey (proj2 Hok)) in Hcreate.
  injection Hcreate as <- <-.
  set (k := {| apikey_id := apikey_seq st;
               apikey_display_name := akc_display_name apikey;
               apikey_description := akc_description apikey;
               token_jti := akc_token_jti apikey;
               token_exp := akc_token_exp apikey;
               apikey_user_id := akc_user_id apikey |}).
  pose proof (table_ok_append apikey_id _ _ k Hok eq_refl) as [Hpk' _].
  assert (k ∈ (user_api_keys (working (session st)) ++ [k])%list) as Hk
    by (apply elem_of_app; right; apply list_elem_of_here).
  unfold delete_user_api_key_from_db, mbind, M_bind, bind. simpl.
  pose proof (owned_key_lookup _ k (user_id current_user) Hpk' Hk) as Hlook.
  simpl in Hlook. rewrite Hlook. split.
  - intros Hu. rewrite decide_True by done. eexists. split; [reflexivity|].
    simpl. rewrite filter_app, filter_cons, filter_nil.
    rewrite decide_False by (intros H; by apply H).
    rewrite app_nil_r. apply filter_keeps_all.
    destruct Hok as [_ Hseq]. eapply Forall_impl; [done|]. simpl. intros. lia.
  - intros Hu. by rewrite decide_False.
Qed.

Lemma create_then_delete_user_api_key_witness :
  exists k st',
    create_user_api_key_in_db
      {| akc_display_name := "laptop"; akc_description := ""; akc_token_jti := "c";
         akc_token_exp := 200; akc_user_id := 1 |} Samples.grants = (Ok k, st') /\
    (exists s'',
       delete_user_api_key_from_db (apikey_id k) (Samples.person 1 "alice") (session st')
       = (Ok tt, s'') /\
       user_api_keys (committed s'') = user_api_keys Samples.store) /\
    delete_user_api_key_from_db (apikey_id k) (Samples.person 2 "bob") (session st')
    = (Ok tt, session st').
Proof.
  eexists _, _.
  assert (create_user_api_key_in_db
            {| akc_display_name := "laptop"; akc_description := ""; akc_token_jti := "c";
               akc_token_exp := 200; akc_user_id := 1 |} Samples.grants = (Ok _, _))
    as Hcreate by (vm_compute; reflexivity).
  split; [exact Hcreate|]. split.
  - apply (proj1 (create_then_delete_user_api_key Samples.grants _ _ _
                    (Samples.person 1 "alice")
                    ltac:(split; apply (bool_decide_unpack _); reflexivity) Hcreate)).
    reflexivity.
  - apply (proj2 (create_then_delete_user_api_key Samples.grants _ _ _
                    (Samples.person 2 "bob")
                    ltac:(split; apply (bool_decide_unpack _); reflexivity) Hcreate)).
    simpl. lia.
Defined.

(** [user_role_exists] answers whether some row carries the triple; a
    file-level role, whose [folder_id] is NULL, matches no folder. *)
Lemma user_role_exists_Exists uid fid role s :
  user_role_exists uid fid role s =
    (Ok (bool_decide (Exists (fun r => role_triple r = (uid, Some fid, role))
                             (user_roles (working s)))), s).
Proof.
  unfold user_role_exists. f_equal. f_equal. apply bool_decide_ext.
  induction (user_roles (working s)) as [|r rows IH].
  - simpl. split; [by intros [? ?]|by intros ?%Exists_nil].
  - rewrite Exists_cons. unfold first in *. simpl.
    destruct (decide (role_triple r = (uid, Some fid, role))) as [Hr|Hr].
    + pose proof Hr as Hr'. unfold role_triple in Hr'. injection Hr' as H1 H2 H3.
      rewrite !bool_decide_eq_true_2 by done. simpl. split; [by left|by eexists].
    + assert (bool_decide (role_user_id r = uid)
              && bool_decide (role_folder_id r = Some fid)
              && bool_decide (Sql.role r = role) = false) as ->.
      { apply not_true_is_false. intros H. apply Hr.
        apply andb_true_iff in H as [H H3]. apply andb_true_iff in H as [H1 H2].
        apply bool_decide_eq_true in H1, H2, H3. unfold role_triple. congruence. }
      rewrite IH. tauto.
Qed.

Lemma create_user_role_in_db_effect st role uid folder_id file_id :
  let r := {| role_id := role_seq st; Sql.role := role; role_user_id := uid;
              role_folder_id := folder_id; role_file_id := file_id |} in
  let d := set_user_roles (working (session st))
             (user_roles (working (session st)) ++ [r]) in
  create_user_role_in_db role uid folder_id file_id st =
    (Ok r, {| session := {| committed := d; working := d |};
              apikey_seq := apikey_seq st; role_seq := role_seq st + 1 |}).
Proof. reflexivity. Qed.

(** X23. Granting a role on a folder makes [user_role_exists] true for that
    user, folder and role, and changes its answer for no other triple. *)
Theorem create_user_role_in_db_grants st role uid fid file_id :
  exists r st',
    create_user_role_in_db role uid (Some fid) file_id st = (Ok r, st') /\
    user_role_exists uid fid role (session st') = (Ok true, session st') /\
    (forall uid' fid' role',
       (uid', fid', role') ≠ (uid, fid, role) ->
       (user_role_exists uid' fid' role' (session st')).1 =
       (user_role_exists uid' fid' role' (session st)).1).
Proof.
  eexists _, _. split; [apply create_user_role_in_db_effect|]. split.
  - rewrite user_role_exists_Exists. simpl. f_equal. f_equal.
    apply bool_decide_eq_true_2, Exists_app. right. by apply Exists_cons_hd.
  - intros uid' fid' role' Hne. rewrite !user_role_exists_Exists. simpl.
    f_equal. apply bool_decide_ext. rewrite Exists_app, Exists_cons, Exists_nil.
    unfold role_triple at 2. simpl. split; [|tauto].
    intros [H|[H|[]]]; [done|]. exfalso. apply Hne. congruence.
Qed.


(** X25. The role just granted is revoked by [delete_user_role_from_db] on its
    identifier: the table of roles is back to what it was. *)
Theorem create_then_delete_user_role st role uid folder_id file_id r st' :
  table_ok role_id (user_roles (working (session st))) (role_seq st) ->
  create_user_role_in_db role uid folder_id file_id st = (Ok r, st') ->
  exists s'',
    delete_user_role_from_db (role_id r) (session st') = (Ok tt, s'') /\
    user_roles (committed s'') = user_roles (working (session st)).
Proof.
  intros [Hpk Hseq]. rewrite create_user_role_in_db_effect. intros [= <- <-].
  unfold delete_user_role_from_db, mbind, M_bind, bind. simpl.
  pose proof (first_fresh role_id (user_roles (working (session st)))
                {| role_id := role_seq st; Sql.role := role; role_user_id := uid;
                   role_folder_id := folder_id; role_file_id := file_id |} Hseq)
    as Hfirst.
  simpl in Hfirst. rewrite Hfirst. eexists. split; [reflexivity|]. simpl.
  rewrite filter_app, filter_cons, filter_nil.
  rewrite decide_False by (intros H; by apply H).
  rewrite app_nil_r. apply filter_keeps_all.
  eapply Forall_impl; [done|]. simpl. intros. lia.
Qed.

Lemma create_then_delete_user_role_witness :
  exists r st' s'',
    create_user_role_in_db "editor" 2 (Some 1) None Samples.grants = (Ok r, st') /\
    delete_user_role_from_db (role_id r) (session st') = (Ok tt, s'') /\
    user_roles (committed s'') = user_roles Samples.store.
Proof.
  eexists _, _.
  assert (create_user_role_in_db "editor" 2 (Some 1) None Samples.grants = (Ok _, _))
    as Hcreate by reflexivity.
  destruct (create_then_delete_user_role Samples.grants "editor" 2 (Some 1) None _ _
              ltac:(split; apply (bool_decide_unpack _); reflexivity) Hcreate)
    as (s'' & H1 & H2).
  exists s''. split; [exact Hcreate|]. split; [exact H1|exact H2].
Defined.

(** X26. [create_user_role_in_db] checks nothing: granted twice, the same role
    is stored in two rows under two identifiers, and revoking the first
    leaves [user_role_exists] true. *)
Theorem create_user_role_in_db_twice st role uid fid file_id :
  table_ok role_id (user_roles (working (session st))) (role_seq st) ->
  exists r1 st1 r2 st2 s3,
    create_user_role_in_db role uid (Some fid) file_id st = (Ok r1, st1) /\
    create_user_role_in_db role uid (Some fid) file_id st1 = (Ok r2, st2) /\
    role_id r1 ≠ role_id r2 /\
    r1 ∈ user_roles (committed (session st2)) /\
    r2 ∈ user_roles (committed (session st2)) /\
    delete_user_role_from_db (role_id r1) (session st2) = (Ok tt, s3) /\
    user_role_exists uid fid role s3 = (Ok true, s3).
Proof.
  intros [Hpk Hseq].
  eexists _, _, _, _, _.
  split; [apply create_user_role_in_db_effect|].
  split; [apply create_user_role_in_db_effect|].
  simpl. split; [lia|].
  split; [apply elem_of_app; left; apply elem_of_app; right; apply list_elem_of_here|].
  split; [apply elem_of_app; right; apply list_elem_of_here|].
  unfold delete_user_role_from_db, mbind, M_bind, bind. simpl.
  pose proof (first_fresh role_id (user_roles (working (session st)))
                {| role_id := role_seq st; Sql.role := role; role_user_id := uid;
                   role_folder_id := Some fid; role_file_id := file_id |} Hseq)
    as Hfirst.
  simpl in Hfirst. rewrite first_app, Hfirst. split; [reflexivity|].
  rewrite user_role_exists_Exists. simpl. f_equal. f_equal.
  apply bool_decide_eq_true_2. apply Exists_exists.
  exists {| role_id := role_seq st + 1; Sql.role := role; role_user_id := uid;
            role_folder_id := Some fid; role_file_id := file_id |}.
  split; [|done].
  apply list_elem_of_filter. split; [simpl; lia|].
  apply elem_of_app. right. apply list_elem_of_here.
Qed.

Lemma create_user_role_in_db_twice_witness :
  exists r1 st1 r2 st2 s3,
    create_user_role_in_db "viewer" 2 (Some 1) None Samples.grants = (Ok r1, st1) /\
    create_user_role_in_db "viewer" 2 (Some 1) None st1 = (Ok r2, st2) /\
    role_id r1 ≠ role_id r2 /\
    r1 ∈ user_roles (committed (session st2)) /\
    r2 ∈ user_roles (committed (session st2)) /\
    delete_user_role_from_db (role_id r1) (session st2) = (Ok tt, s3) /\
    user_role_exists 2 1 "viewer" s3 = (Ok true, s3).
Proof.
  apply (create_user_role_in_db_twice Samples.grants "viewer" 2 1 None).
  split; apply (bool_decide_unpack _); reflexivity.
Defined.

(** X27. Deleting a stored role removes that row and no other, and commits; if
    no other row grants the same user the same role on the same folder,
    [user_role_exists] is false afterwards. *)
Theorem delete_user_role_from_db_revokes s r fid :
  NoDup (role_id <$> user_roles (working s)) ->
  r ∈ user_roles (working s) ->
  role_folder_id r = Some fid ->
  (forall r', r' ∈ user_roles (working s) -> r' ≠ r -> role_triple r' ≠ role_triple r) ->
  exists s',
    delete_user_role_from_db (role_id r) s = (Ok tt, s') /\
    committed s' = working s' /\
    (forall r', r' ∈ user_roles (working s') <->
                r' ∈ user_roles (working s) /\ r' ≠ r) /\
    user_role_exists (role_user_id r) fid (Sql.role r) s' = (Ok false, s').
Proof.
  intros Hpk Hr Hfolder Honly.
  set (d' := set_user_roles (working s)
               (filter (fun g => role_id g ≠ role_id r) (user_roles (working s)))).
  exists {| committed := d'; working := d' |}.
  assert (forall r', r' ∈ user_roles d' <-> r' ∈ user_roles (working s) /\ r' ≠ r) as Hrows.
  { intros r'. simpl. rewrite list_elem_of_filter. split.
    - intros [Hne Hr']. split; [done|]. by intros ->.
    - intros [Hr' Hne]. split; [|done]. intros Hid. apply Hne.
      by apply (pk_inj role_id (user_roles (working s))). }
  split; [|split; [done|split; [done|]]].
  - unfold delete_user_role_from_db, mbind, M_bind, bind.
    by rewrite (first_pk role_id).
  - rewrite user_role_exists_Exists. f_equal. f_equal.
    apply bool_decide_eq_false_2. rewrite Exists_exists.
    intros (r' & Hr' & Ht). apply Hrows in Hr' as [Hr' Hne].
    apply (Honly r' Hr' Hne). rewrite Ht. unfold role_triple. by rewrite Hfolder.
Qed.

Lemma delete_user_role_from_db_revokes_witness :
  exists s',
    delete_user_role_from_db 5 Samples.session = (Ok tt, s') /\
    committed s' = working s' /\
    (forall r', r' ∈ user_roles (working s') <->
       r' ∈ user_roles Samples.store /\
       r' ≠ {| role_id := 5; role := "viewer"; role_user_id := 1;
               role_folder_id := Some 1; role_file_id := None |}) /\
    user_role_exists 1 1 "viewer" s' = (Ok false, s').
Proof.
  apply (delete_user_role_from_db_revokes Samples.session
           {| role_id := 5; role := "viewer"; role_user_id := 1;
              role_folder_id := Some 1; role_file_id := None |} 1).
  - apply (bool_decide_unpack _). reflexivity.
  - simpl. apply list_elem_of_here.
  - reflexivity.
  - simpl. intros r' Hr' Hne. apply list_elem_of_singleton in Hr'. done.
Defined.

End UsersMore.

(** ** More on workflows and tasks *)

Section WorkflowsMore.
Import Py Sql Models.

#[local] Instance task_id_asc_total : Total task_id_asc.
Proof. intros a b. unfold task_id_asc. lia. Qed.

#[local] Instance task_id_asc_trans : Transitive task_id_asc.
Proof. intros a b c. unfold task_id_asc. lia. Qed.

Lemma task_id_asc_strict l :
  NoDup (task_id <$> l) -> StronglySorted task_id_asc l -> StronglySorted task_id_below l.
Proof.
  intros Hnd Hs. induction Hs as [|a l Hs IH Hall]; [constructor|].
  rewrite fmap_cons in Hnd. apply NoDup_cons in Hnd as [Ha Hnd].
  constructor; [by apply IH|].
  rewrite Forall_forall in Hall |- *. intros b Hb.
  specialize (Hall b Hb). unfold task_id_asc in Hall. unfold task_id_below.
  assert (task_id b ≠ task_id a); [|lia].
  intros Heq. apply Ha. rewrite <- Heq. by apply list_elem_of_fmap_2.
Qed.

(** X28. [workflow.tasks] holds the tasks of the workflow, each once, in strictly
    ascending order of [Task.id]; a task is in the list of the one workflow
    its [workflow_id] names and in no other. *)
Theorem Workflow_tasks_ordered d w :
  NoDup (task_id <$> tasks d) ->
  Workflow_tasks w d ≡ₚ filter (fun t => task_workflow_id t = workflow_id w) (tasks d) /\
  StronglySorted task_id_below (Workflow_tasks w d) /\
  (forall t, t ∈ Workflow_tasks w d <->
             t ∈ tasks d /\ task_workflow_id t = workflow_id w) /\
  (forall w' t, workflow_id w' ≠ workflow_id w ->
                t ∈ Workflow_tasks w d -> t ∉ Workflow_tasks w' d).
Proof.
  intros Hpk. unfold Workflow_tasks.
  assert (forall v t, t ∈ merge_sort task_id_asc
                         (filter (fun t => task_workflow_id t = workflow_id v) (tasks d))
                      <-> t ∈ tasks d /\ task_workflow_id t = workflow_id v) as Hmem.
  { intros v t. rewrite merge_sort_Permutation, list_elem_of_filter. tauto. }
  split; [apply merge_sort_Permutation|]. split; [|split; [apply Hmem|]].
  - apply task_id_asc_strict.
    + rewrite merge_sort_Permutation.
      apply (NoDup_fmap_2_strong task_id).
      * intros x y [_ Hx]%list_elem_of_filter [_ Hy]%list_elem_of_filter Heq.
        by apply (pk_inj task_id (tasks d)).
      * apply NoDup_filter. by apply (NoDup_fmap_1 task_id).
    + apply StronglySorted_merge_sort; apply _.
  - intros w' t Hne [_ Hw]%Hmem [_ Hw']%Hmem. congruence.
Qed.

Lemma Workflow_tasks_ordered_witness :
  Workflow_tasks (Samples.flow 3) Samples.store
  ≡ₚ filter (fun t => task_workflow_id t = 3) (tasks Samples.store) /\
  StronglySorted task_id_below (Workflow_tasks (Samples.flow 3) Samples.store) /\
  (forall t, t ∈ Workflow_tasks (Samples.flow 3) Samples.store <->
             t ∈ tasks Samples.store /\ task_workflow_id t = 3) /\
  (forall w' t, workflow_id w' ≠ 3 ->
                t ∈ Workflow_tasks (Samples.flow 3) Samples.store ->
                t ∉ Workflow_tasks w' Samples.store).
Proof.
  apply (Workflow_tasks_ordered Samples.store (Samples.flow 3)).
  apply (bool_decide_unpack _). reflexivity.
Defined.

Lemma files_after_map gone fs : files_after gone fs = detach gone <$> fs.
Proof.
  unfold files_after, one_to_many_on_delete.
  rewrite !bool_decide_eq_false_2 by apply Task_files_cascade_no_delete.
  by rewrite <- list_fmap_compose.
Qed.

Lemma detach_id gone x : file_id (detach gone x) = file_id x.
Proof.
  unfold detach.
  destruct (references (fun f => task_input_id (file_attrs f)) gone x);
    destruct (references (fun f => task_output_id (file_attrs f)) gone _); done.
Qed.

Lemma references_false_not_in {C} (fk : C -> option Z) parents c p :
  references fk parents c = false -> p ∈ parents -> fk c ≠ Some p.
Proof.
  unfold references. intros H Hp Hfk. rewrite Hfk in H.
  by rewrite bool_decide_eq_true_2 in H.
Qed.

Lemma references_true_in {C} (fk : C -> option Z) parents c :
  references fk parents c = true -> exists p, fk c = Some p /\ p ∈ parents.
Proof.
  unfold references. destruct (fk c) as [p|]; [|done].
  intros H%bool_decide_eq_true. by exists p.
Qed.

(** After [detach], a file references a task exactly when it did before
    and the task is not among those gone. *)
Lemma detach_input gone x p :
  task_input_id (file_attrs (detach gone x)) = Some p <->
  task_input_id (file_attrs x) = Some p /\ p ∉ gone.
Proof.
  unfold detach.
  destruct (references (fun f => task_input_id (file_attrs f)) gone x) eqn:Ein.
  - apply references_true_in in Ein as (q & Hq & Hqg).
    assert (task_input_id
              (file_attrs
                 (if references (fun f => task_output_id (file_attrs f)) gone
                       (clear_task_input x)
                  then clear_task_output (clear_task_input x)
                  else clear_task_input x)) = None) as ->
      by (destruct (references _ gone (clear_task_input x)); reflexivity).
    rewrite Hq. split; [done|]. intros [[= ->] H]. done.
  - assert (task_input_id
              (file_attrs
                 (if references (fun f => task_output_id (file_attrs f)) gone x
                  then clear_task_output x else x)) = task_input_id (file_attrs x)) as ->
      by (destruct (references (fun f => task_output_id (file_attrs f)) gone x);
          reflexivity).
    split; [|tauto]. intros H. split; [done|]. intros Hp.
    by apply (references_false_not_in _ gone _ p Ein).
Qed.

Lemma detach_output gone x p :
  task_output_id (file_attrs (detach gone x)) = Some p <->
  task_output_id (file_attrs x) = Some p /\ p ∉ gone.
Proof.
  unfold detach.
  set (f1 := if references (fun f => task_input_id (file_attrs f)) gone x
             then clear_task_input x else x).
  assert (task_output_id (file_attrs f1) = task_output_id (file_attrs x)) as Hsame
    by (subst f1;
        destruct (references (fun f => task_input_id (file_attrs f)) gone x);
        reflexivity).
  destruct (references (fun f => task_output_id (file_attrs f)) gone f1) eqn:Eout.
  - apply references_true_in in Eout as (q & Hq & Hqg). simpl.
    rewrite <- Hsame, Hq. split; [done|]. intros [[= ->] H]. done.
  - rewrite Hsame. split; [|tauto]. intros H. split; [done|]. intros Hp.
    apply (references_false_not_in _ gone _ p Eout Hp). by rewrite Hsame.
Qed.

Lemma filter_fmap_ids (g : File -> File) (P : File -> Prop)
    `{!forall f, Decision (P f)} (fs : list File) :
  (forall x, file_id (g x) = file_id x) ->
  (forall x, P (g x) <-> P x) ->
  (file_id <$> filter P (g <$> fs)) = (file_id <$> filter P fs).
Proof.
  intros Hid HP. induction fs as [|x fs IH]; [done|].
  rewrite fmap_cons, !filter_cons.
  destruct (decide (P (g x))) as [Hg|Hg], (decide (P x)) as [Hx|Hx];
    rewrite ?fmap_cons, ?Hid, ?IH; try done; exfalso.
  - apply Hx. by apply HP.
  - apply Hg. by apply HP.
Qed.

Lemma delete_workflow_effect s w s' :
  delete_workflow (Some w) s = (Ok tt, s') ->
  let d := working s in
  let gone := task_id <$> filter (fun t => task_workflow_id t = workflow_id w) (tasks d) in
  s' = {| committed := committed s;
          working := set_workflow_graph d
            (filter (fun v => workflow_id v ≠ workflow_id w) (workflows d))
            (filter (fun t => task_workflow_id t ≠ workflow_id w) (tasks d))
            (files_after gone (files d))
            (filter (fun p : Z * Z => p.2 ≠ workflow_id w) (file_workflow d)) |}.
Proof.
  unfold delete_workflow.
  rewrite (bool_decide_eq_true_2 _ Workflow_tasks_cascade_delete).
  by intros [= <-].
Qed.

(** X29. [db.delete(workflow)] leaves nothing pointing at what it removes: no
    file references a task of the workflow as input or output any more, no
    association row names the workflow, and every remaining task has the
    input and output files it had.  Nothing is committed by the delete
    itself. *)
Theorem delete_workflow_no_dangling s w s' :
  NoDup (task_id <$> tasks (working s)) ->
  delete_workflow (Some w) s = (Ok tt, s') ->
  committed s' = committed s /\
  (forall f t,
     f ∈ files (working s') -> t ∈ tasks (working s) ->
     task_workflow_id t = workflow_id w ->
     task_input_id (file_attrs f) ≠ Some (task_id t) /\
     task_output_id (file_attrs f) ≠ Some (task_id t)) /\
  (forall p, p ∈ file_workflow (working s') <->
             p ∈ file_workflow (working s) /\ p.2 ≠ workflow_id w) /\
  (forall t, t ∈ tasks (working s') ->
     (file_id <$> Task_input_files t (working s')) =
       (file_id <$> Task_input_files t (working s)) /\
     (file_id <$> Task_output_files t (working s')) =
       (file_id <$> Task_output_files t (working s))).
Proof.
  intros Hpk Hdel. rewrite (delete_workflow_effect s w s' Hdel). simpl.
  set (gone := task_id <$> filter (fun t => task_workflow_id t = workflow_id w)
                                  (tasks (working s))).
  split; [done|]. split; [|split].
  - intros f t Hf Ht Hw.
    assert (task_id t ∈ gone) as Hgone
      by (apply list_elem_of_fmap_2; by apply list_elem_of_filter).
    rewrite files_after_map in Hf.
    apply list_elem_of_fmap in Hf as (x & -> & _).
    rewrite detach_input, detach_output.
    split; intros [_ H]; by apply H.
  - intros p. rewrite list_elem_of_filter. tauto.
  - intros t [Hw Ht]%list_elem_of_filter.
    assert (task_id t ∉ gone) as Hkept.
    { intros (t' & Hid & [Hw' Ht']%list_elem_of_filter)%list_elem_of_fmap.
      assert (t = t') by (by apply (pk_inj task_id (tasks (working s)))).
      congruence. }
    unfold Task_input_files, Task_output_files. simpl. rewrite files_after_map.
    split; apply filter_fmap_ids; try apply detach_id; intros x.
    + rewrite detach_input. tauto.
    + rewrite detach_output. tauto.
Qed.

Lemma delete_workflow_no_dangling_witness :
  exists s',
    committed s' = Samples.store /\
    (forall f t,
       f ∈ files (working s') -> t ∈ tasks Samples.store ->
       task_workflow_id t = 3 ->
       task_input_id (file_attrs f) ≠ Some (task_id t) /\
       task_output_id (file_attrs f) ≠ Some (task_id t)) /\
    (forall p, p ∈ file_workflow (working s') <->
               p ∈ file_workflow Samples.store /\ p.2 ≠ 3) /\
    (forall t, t ∈ tasks (working s') ->
       (file_id <$> Task_input_files t (working s')) =
         (file_id <$> Task_input_files t Samples.store) /\
       (file_id <$> Task_output_files t (working s')) =
         (file_id <$> Task_output_files t Samples.store)).
Proof.
  eexists.
  eapply (delete_workflow_no_dangling Samples.session (Samples.flow 3)).
  - apply (bool_decide_unpack _). reflexivity.
  - vm_compute. reflexivity.
Defined.

End WorkflowsMore.
